(** * The fsp-srv service layer of core/hle/service/filesystem/fsp_srv.cpp

    A shallow embedding of the four service objects of that file
    (IStorage, IFile, IDirectory, IFileSystem) and of the top-level
    FSP_SRV service, followed by the properties of their command
    handlers.

    A handler is a computation over a machine made of the backend's
    world, the log of the backend calls made so far and the request
    context (argument words, input buffer, output writes, reply).  The
    backends are the abstract classes of core/file_sys: they are type
    classes here, and every handler is stated for an arbitrary
    instance. *)

From Stdlib Require Import ZArith List Bool Lia.
From Stdlib Require Import Strings.Byte.
From Stdlib Require Strings.String.
Import ListNotations.
Local Open Scope Z_scope.

(** ** Result codes *)

(** Modelled from the spec: the enumeration [ErrorModule] of
    core/hle/result.h, which is not among the sources at hand; the
    handlers name one module, FS. *)
Inductive ErrorModule : Type := FS.

(** Modelled from the spec: the enumeration [ErrorDescription] of
    core/hle/result.h; the two validation errors this layer emits. *)
Inductive ErrorDescription : Type :=
| InvalidOffset
| InvalidLength.

(** Modelled from the spec: [ResultCode] of core/hle/result.h, an
    opaque numeric code tagged with a module and a description.  The
    handlers build one either from a raw 32-bit value,
    [ResultCode(u32)], or from a module and a description,
    [ResultCode(ErrorModule, ErrorDescription)]; the numbering of the
    two enumerations is not needed and the codes stay symbolic. *)
Inductive ResultCode : Type :=
| ResultCode_raw (raw : Z)
| ResultCode_of (module : ErrorModule) (description : ErrorDescription).

Definition u32 (x : Z) : Z := x mod 2 ^ 32.
Definition u64 (x : Z) : Z := x mod 2 ^ 64.
Definition s64 (x : Z) : Z :=
  let r := x mod 2 ^ 64 in if r <? 2 ^ 63 then r else r - 2 ^ 64.

Definition RESULT_SUCCESS : ResultCode := ResultCode_raw 0.

(** Modelled from the spec: [ResultVal<T>] of core/hle/result.h, what
    a backend operation yields: a value, or the code of the failure. *)
Inductive ResultVal (T : Type) : Type :=
| MakeResult (value : T)
| ResultError (code : ResultCode).
Arguments MakeResult {T} value.
Arguments ResultError {T} code.

Definition Succeeded {T} (r : ResultVal T) : bool :=
  match r with MakeResult _ => true | ResultError _ => false end.

Definition Failed {T} (r : ResultVal T) : bool := negb (Succeeded r).

Definition Code {T} (r : ResultVal T) : ResultCode :=
  match r with MakeResult _ => RESULT_SUCCESS | ResultError c => c end.

(** ** The mounts of core/hle/service/filesystem/filesystem.h *)

(** Modelled from the spec: the enumeration [Type] of filesystem.h,
    which is not among the sources at hand; the three fixed mounts the
    handlers name. *)
Inductive Type_ : Type := RomFS | SaveData | SDMC.

Definition Type_eqb (a b : Type_) : bool :=
  match a, b with
  | RomFS, RomFS | SaveData, SaveData | SDMC, SDMC => true
  | _, _ => false
  end.

(** Modelled from the spec: [FileSys::Path] of core/file_sys; the
    handlers only ever pass a default-constructed one,
    [FileSys::Path unused;]. *)
Inductive Path : Type := Path_default.

(** Modelled from the spec: [FileSys::Mode] of core/file_sys, kept as
    the 32-bit word it is cast from. *)
Definition Mode : Type := Z.

(** ** Byte buffers *)

(** The contents of a vector of [length] bytes as its constructor
    leaves them: all zero. *)
Definition zero_bytes (length : Z) : list byte := repeat x00 (Z.to_nat length).

(** What a callee that received [buffer.data()] leaves in the vector
    after storing [src] from its first cell on: the vector keeps its
    size, cells past [src] keep their value.  The callee has a raw
    pointer: this is what it leaves when it stores no more than the
    vector holds; a longer store runs over the end of the vector, and
    the statements that depend on the stored bytes are for callees
    that stay within it. *)
Definition stored {A} (dst src : list A) : list A :=
  firstn (length dst) src ++ skipn (length src) dst.

(** [std::find(begin, end, '\0')] followed by
    [std::string name(begin, end)]: the bytes before the first zero. *)
Fixpoint until_zero (buffer : list byte) : list byte :=
  match buffer with
  | [] => []
  | b :: rest => if Byte.eqb b x00 then [] else b :: until_zero rest
  end.

(** ** The backend interfaces (core/file_sys) and the mount table

    [W] is the state of everything behind the backends (host files,
    archives); [SB], [DB] and [FB] are the storage, directory and
    filesystem backend objects a [std::unique_ptr] owns.  A method
    takes the world and returns it, changed or not.  A method that
    receives a raw output pointer returns what it stored through it. *)

Module StorageBackend.
Class t (W SB : Type) : Type := {
  Read : SB -> Z -> Z -> W -> (ResultVal Z * list byte) * W;
  Write : SB -> Z -> Z -> bool -> list byte -> W -> ResultVal Z * W;
  Flush : SB -> W -> bool * W;
  SetSize : SB -> Z -> W -> bool * W;
  GetSize : SB -> W -> Z * W
}.
End StorageBackend.

Module DirectoryBackend.
Class t (W DB Entry : Type) : Type := {
  Read : DB -> Z -> W -> (Z * list Entry) * W;
  GetEntryCount : DB -> W -> Z * W
}.
End DirectoryBackend.

Module FileSystemBackend.
Class t (W FB SB DB : Type) : Type := {
  CreateFile : FB -> list byte -> Z -> W -> ResultCode * W;
  DeleteFile : FB -> list byte -> W -> ResultCode * W;
  CreateDirectory : FB -> list byte -> W -> ResultCode * W;
  OpenFile : FB -> list byte -> Mode -> W -> ResultVal SB * W;
  OpenDirectory : FB -> list byte -> W -> ResultVal DB * W;
  GetEntryType : FB -> list byte -> W -> ResultVal Z * W
}.
End FileSystemBackend.

(** [Service::FileSystem::OpenFileSystem(Type, Path&)] of filesystem.cpp. *)
Module Mounts.
Class t (W FB : Type) : Type := {
  OpenFileSystem : Type_ -> Path -> W -> ResultVal FB * W
}.
End Mounts.

(** The allocator of the host: whether a [std::vector<u8>] of the
    given size can be allocated in the given state of the host.  When
    it cannot, the constructor throws ([std::bad_alloc],
    [std::length_error]) and the exception leaves the handler. *)
Module Host.
Class t (W : Type) : Type := {
  allocates : Z -> W -> bool
}.
End Host.

(** The record layout of [FileSys::Entry] (core/file_sys/directory.h):
    its size, its value-initialised element and its object
    representation, which is what [std::memcpy] copies. *)
Module EntryLayout.
Class t (Entry : Type) : Type := {
  sizeof : Z;
  zero : Entry;
  bytes : Entry -> list byte
}.
End EntryLayout.

(** ** Backend calls, as the log keeps them *)

Inductive Call (SB DB FB : Type) : Type :=
| Storage_Read (backend : SB) (offset length : Z)
| Storage_Write (backend : SB) (offset length : Z) (flush : bool) (data : list byte)
| Storage_Flush (backend : SB)
| Storage_SetSize (backend : SB) (size : Z)
| Storage_GetSize (backend : SB)
| Directory_Read (backend : DB) (count : Z)
| Directory_GetEntryCount (backend : DB)
| FileSystem_CreateFile (backend : FB) (name : list byte) (size : Z)
| FileSystem_DeleteFile (backend : FB) (name : list byte)
| FileSystem_CreateDirectory (backend : FB) (name : list byte)
| FileSystem_OpenFile (backend : FB) (name : list byte) (mode : Mode)
| FileSystem_OpenDirectory (backend : FB) (name : list byte)
| FileSystem_GetEntryType (backend : FB) (name : list byte)
| Mounts_OpenFileSystem (type : Type_) (path : Path) (succeeded : bool).

Arguments Storage_Read {SB DB FB}.
Arguments Storage_Write {SB DB FB}.
Arguments Storage_Flush {SB DB FB}.
Arguments Storage_SetSize {SB DB FB}.
Arguments Storage_GetSize {SB DB FB}.
Arguments Directory_Read {SB DB FB}.
Arguments Directory_GetEntryCount {SB DB FB}.
Arguments FileSystem_CreateFile {SB DB FB}.
Arguments FileSystem_DeleteFile {SB DB FB}.
Arguments FileSystem_CreateDirectory {SB DB FB}.
Arguments FileSystem_OpenFile {SB DB FB}.
Arguments FileSystem_OpenDirectory {SB DB FB}.
Arguments FileSystem_GetEntryType {SB DB FB}.
Arguments Mounts_OpenFileSystem {SB DB FB}.

(** ** Service objects: each class owns one backend object *)

Inductive ServiceObject (SB DB FB : Type) : Type :=
| IStorage (backend : SB)
| IFile (backend : SB)
| IDirectory (backend : DB)
| IFileSystem (backend : FB).
Arguments IStorage {SB DB FB}.
Arguments IFile {SB DB FB}.
Arguments IDirectory {SB DB FB}.
Arguments IFileSystem {SB DB FB}.

(** ** The request context (Kernel::HLERequestContext) *)

(** Modelled from the spec: the response side of the codec of
    core/hle/ipc_helpers.h, which is not among the sources at hand: a
    reply is a status followed by ordered scalar results and at most
    one child object.  A [Param] is what a [ResponseBuilder] pushes. *)
Inductive Param : Type :=
| Param_code (code : ResultCode)
| Param_u32 (value : Z)
| Param_u64 (value : Z).

(** Modelled from the spec: what [IPC::ResponseBuilder] has written,
    the three sizes it was built with, the values pushed and the
    interfaces attached, in order. *)
Record Reply (SB DB FB : Type) : Type := {
  normal_params_size : Z;
  num_handles_to_copy : Z;
  num_objects_to_move : Z;
  params : list Param;
  interfaces : list (ServiceObject SB DB FB)
}.
Arguments normal_params_size {SB DB FB}.
Arguments num_handles_to_copy {SB DB FB}.
Arguments num_objects_to_move {SB DB FB}.
Arguments params {SB DB FB}.
Arguments interfaces {SB DB FB}.

(** Modelled from the spec: [Kernel::HLERequestContext] of
    core/hle/kernel/hle_ipc.h, as far as the handlers use it: the
    ordered scalar-argument block, the input byte buffer, the capacity
    of the output buffer, what was written to it, and the reply. *)
Record HLERequestContext (SB DB FB : Type) : Type := {
  cmd_buf : list Z;             (* the argument words of the request *)
  read_buffer : list byte;      (* ReadBuffer() *)
  write_buffer_size : Z;        (* GetWriteBufferSize() *)
  written : list (list byte);   (* payloads of WriteBuffer, oldest first *)
  reply : option (Reply SB DB FB)  (* what the response builder left *)
}.
Arguments cmd_buf {SB DB FB}.
Arguments read_buffer {SB DB FB}.
Arguments write_buffer_size {SB DB FB}.
Arguments written {SB DB FB}.
Arguments reply {SB DB FB}.

(** The status of a reply: the code pushed first. *)
Definition status {SB DB FB} (ctx : HLERequestContext SB DB FB) : option ResultCode :=
  match reply ctx with
  | Some r => match params r with Param_code c :: _ => Some c | _ => None end
  | None => None
  end.

(** ** The request parser *)

(** Modelled from the spec: [IPC::RequestParser] of
    core/hle/ipc_helpers.h, which is not among the sources at hand; it
    decodes fixed-width scalar fields in the order the handler pops
    them.  The argument block is kept as 32-bit words and the parser
    is the position of the next one. *)
Record RequestParser : Type := {
  words : list Z;
  index : nat
}.

(** Modelled from the spec: [rp.Pop<u32>()], the next word. *)
Definition Pop_u32 (rp : RequestParser) : Z * RequestParser :=
  (u32 (nth (index rp) (words rp) 0),
   {| words := words rp; index := S (index rp) |}).

(** Modelled from the spec: [rp.Pop<u64>()], a 64-bit field of two
    words, low word first. *)
Definition Pop_u64 (rp : RequestParser) : Z * RequestParser :=
  let '(lsw, rp) := Pop_u32 rp in
  let '(msw, rp) := Pop_u32 rp in
  (msw * 2 ^ 32 + lsw, rp).

(** Modelled from the spec: [rp.Pop<s64>()], the same field read as a
    signed value. *)
Definition Pop_s64 (rp : RequestParser) : Z * RequestParser :=
  let '(raw, rp) := Pop_u64 rp in (s64 raw, rp).

(** Modelled from the spec: [rp.PopRaw<T>()], a fixed-size opaque
    struct, as many words as its size needs. *)
Fixpoint PopRaw (nwords : nat) (rp : RequestParser) : list Z * RequestParser :=
  match nwords with
  | O => ([], rp)
  | S n =>
      let '(w, rp) := Pop_u32 rp in
      let '(ws, rp) := PopRaw n rp in
      (w :: ws, rp)
  end.

(** ** The machine and the handler monad *)

Section Service.
Context {W SB DB FB Entry : Type}.
Context {storage : StorageBackend.t W SB}
        {directory : DirectoryBackend.t W DB Entry}
        {filesystem : FileSystemBackend.t W FB SB DB}
        {mounts : Mounts.t W FB}
        {layout : EntryLayout.t Entry}
        {host : Host.t W}.

Record Machine : Type := {
  world : W;
  calls : list (Call SB DB FB);   (* backend calls made, oldest first *)
  ctx : HLERequestContext SB DB FB
}.

(** A handler returns, or stops at a failed assertion without
    having answered, or is left by an exception. *)
Inductive Outcome (A : Type) : Type :=
| Returned (a : A) (m : Machine)
| AssertionFailed (m : Machine)
| Thrown (m : Machine).
Arguments Returned {A} a m.
Arguments AssertionFailed {A} m.
Arguments Thrown {A} m.

Definition M (A : Type) : Type := Machine -> Outcome A.

Definition ret {A} (a : A) : M A := fun m => Returned a m.

Definition bind {A B} (c : M A) (k : A -> M B) : M B :=
  fun m =>
    match c m with
    | Returned a m' => k a m'
    | AssertionFailed m' => AssertionFailed m'
    | Thrown m' => Thrown m'
    end.

Local Notation "x <- c ;; k" := (bind c (fun x => k))
  (at level 61, c at next level, right associativity).
Local Notation "c ;; k" := (bind c (fun _ => k))
  (at level 61, right associativity).

(** One backend call: the world moves on and the log grows. *)
Definition invoke {A} (call : A -> Call SB DB FB) (method : W -> A * W) : M A :=
  fun m =>
    let '(a, w) := method (world m) in
    Returned a {| world := w; calls := calls m ++ [call a]; ctx := ctx m |}.

Definition with_ctx (f : HLERequestContext SB DB FB -> HLERequestContext SB DB FB)
  : M unit :=
  fun m => Returned tt {| world := world m; calls := calls m; ctx := f (ctx m) |}.

(** Modelled from the spec: [ResultVal::Unwrap] of core/hle/result.h,
    which is not among the sources at hand.  It hands out the value
    the result holds; a failed result holds a code and no value, so
    the handler that unwraps one stops there, at the assertion, and
    builds no reply. *)
Definition Unwrap {T} (r : ResultVal T) : M T :=
  fun m =>
    match r with
    | MakeResult v => Returned v m
    | ResultError _ => AssertionFailed m
    end.

(** [std::vector<u8> output(length)]: [length] zero bytes when the
    host can allocate them; an exception when it cannot, with nothing
    done yet. *)
Definition vector_u8 (length : Z) : M (list byte) :=
  fun m =>
    if Host.allocates length (world m) then Returned (zero_bytes length) m
    else Thrown m.

(** [*res]: the value a succeeded result holds, read past a check
    of [Failed]. *)
Definition Deref {T} (r : ResultVal T) : M T := Unwrap r.

(** *** Context operations *)

(** Modelled from the spec: [IPC::RequestParser rp{ctx}], a parser at
    the start of the argument block. *)
Definition NewRequestParser : M RequestParser :=
  fun m => Returned {| words := cmd_buf (ctx m); index := O |} m.

(** Modelled from the spec: [ctx.ReadBuffer()], the input byte
    buffer of the request. *)
Definition ReadBuffer : M (list byte) :=
  fun m => Returned (read_buffer (ctx m)) m.

(** Modelled from the spec: [ctx.GetWriteBufferSize()], the capacity
    of the caller's output buffer. *)
Definition GetWriteBufferSize : M Z :=
  fun m => Returned (write_buffer_size (ctx m)) m.

(** Modelled from the spec: [ctx.WriteBuffer(output)], the bulk output
    payload: all of [output] goes to the caller's buffer.  What the
    call does with a payload larger than the capacity of that buffer
    is not settled here; the statements about a payload are for
    payloads within the capacity. *)
Definition WriteBuffer (output : list byte) : M unit :=
  with_ctx (fun c =>
    {| cmd_buf := cmd_buf c; read_buffer := read_buffer c;
       write_buffer_size := write_buffer_size c;
       written := written c ++ [output];
       reply := reply c |}).

Definition set_reply (f : option (Reply SB DB FB) -> option (Reply SB DB FB))
  : M unit :=
  with_ctx (fun c =>
    {| cmd_buf := cmd_buf c; read_buffer := read_buffer c;
       write_buffer_size := write_buffer_size c;
       written := written c;
       reply := f (reply c) |}).

(** Modelled from the spec:
    [IPC::ResponseBuilder rb{ctx, normal, copy, move}], a fresh reply
    of the sizes given. *)
Definition ResponseBuilder (normal copy move : Z) : M unit :=
  set_reply (fun _ =>
    Some {| normal_params_size := normal; num_handles_to_copy := copy;
            num_objects_to_move := move; params := []; interfaces := [] |}).

(** Modelled from the spec: [rb.Push(value)], the next scalar of the
    reply. *)
Definition Push (p : Param) : M unit :=
  set_reply (option_map (fun r =>
    {| normal_params_size := normal_params_size r;
       num_handles_to_copy := num_handles_to_copy r;
       num_objects_to_move := num_objects_to_move r;
       params := params r ++ [p]; interfaces := interfaces r |})).

(** Modelled from the spec: [rb.PushIpcInterface<T>(backend)], a new
    service object of class [T] owning [backend], attached to the
    reply. *)
Definition PushIpcInterface (object : ServiceObject SB DB FB) : M unit :=
  set_reply (option_map (fun r =>
    {| normal_params_size := normal_params_size r;
       num_handles_to_copy := num_handles_to_copy r;
       num_objects_to_move := num_objects_to_move r;
       params := params r; interfaces := interfaces r ++ [object] |})).

(** *** class IStorage *)

Definition IStorage_Read (backend : SB) : M unit :=
  rp <- NewRequestParser ;;
  let '(offset, rp) := Pop_s64 rp in
  let '(length, rp) := Pop_s64 rp in
  if length <? 0 then
    ResponseBuilder 2 0 0 ;;
    Push (Param_code (ResultCode_of FS InvalidLength))
  else if offset <? 0 then
    ResponseBuilder 2 0 0 ;;
    Push (Param_code (ResultCode_of FS InvalidOffset))
  else
    output <- vector_u8 length ;;
    r <- invoke (fun _ => Storage_Read backend offset length)
                (StorageBackend.Read backend offset length) ;;
    let '(res, data) := r in
    let output := stored output data in
    if Failed res then
      ResponseBuilder 2 0 0 ;;
      Push (Param_code (Code res))
    else
      WriteBuffer output ;;
      ResponseBuilder 2 0 0 ;;
      Push (Param_code RESULT_SUCCESS).

(** *** class IFile *)

Definition IFile_Read (backend : SB) : M unit :=
  rp <- NewRequestParser ;;
  let '(unk, rp) := Pop_u64 rp in
  let '(offset, rp) := Pop_s64 rp in
  let '(length, rp) := Pop_s64 rp in
  if length <? 0 then
    ResponseBuilder 2 0 0 ;;
    Push (Param_code (ResultCode_of FS InvalidLength))
  else if offset <? 0 then
    ResponseBuilder 2 0 0 ;;
    Push (Param_code (ResultCode_of FS InvalidOffset))
  else
    output <- vector_u8 length ;;
    r <- invoke (fun _ => Storage_Read backend offset length)
                (StorageBackend.Read backend offset length) ;;
    let '(res, data) := r in
    let output := stored output data in
    if Failed res then
      ResponseBuilder 2 0 0 ;;
      Push (Param_code (Code res))
    else
      WriteBuffer output ;;
      ResponseBuilder 4 0 0 ;;
      Push (Param_code RESULT_SUCCESS) ;;
      count <- Deref res ;;
      Push (Param_u64 (u64 count)).

Definition IFile_Write (backend : SB) : M unit :=
  rp <- NewRequestParser ;;
  let '(unk, rp) := Pop_u64 rp in
  let '(offset, rp) := Pop_s64 rp in
  let '(length, rp) := Pop_s64 rp in
  if length <? 0 then
    ResponseBuilder 2 0 0 ;;
    Push (Param_code (ResultCode_of FS InvalidLength))
  else if offset <? 0 then
    ResponseBuilder 2 0 0 ;;
    Push (Param_code (ResultCode_of FS InvalidOffset))
  else
    data <- ReadBuffer ;;
    res <- invoke (fun _ => Storage_Write backend offset length true data)
                  (StorageBackend.Write backend offset length true data) ;;
    if Failed res then
      ResponseBuilder 2 0 0 ;;
      Push (Param_code (Code res))
    else
      ResponseBuilder 2 0 0 ;;
      Push (Param_code RESULT_SUCCESS).

Definition IFile_Flush (backend : SB) : M unit :=
  invoke (fun _ => Storage_Flush backend) (StorageBackend.Flush backend) ;;
  ResponseBuilder 2 0 0 ;;
  Push (Param_code RESULT_SUCCESS).

Definition IFile_SetSize (backend : SB) : M unit :=
  rp <- NewRequestParser ;;
  let '(size, rp) := Pop_u64 rp in
  invoke (fun _ => Storage_SetSize backend size)
         (StorageBackend.SetSize backend size) ;;
  ResponseBuilder 2 0 0 ;;
  Push (Param_code RESULT_SUCCESS).

Definition IFile_GetSize (backend : SB) : M unit :=
  size <- invoke (fun _ => Storage_GetSize backend)
                 (StorageBackend.GetSize backend) ;;
  ResponseBuilder 4 0 0 ;;
  Push (Param_code RESULT_SUCCESS) ;;
  Push (Param_u64 (u64 size)).

(** *** class IDirectory

    The two vectors of Read together take no more bytes than the
    caller's output buffer holds; their allocation is not modelled as
    one that can fail. *)

Definition IDirectory_Read (backend : DB) : M unit :=
  rp <- NewRequestParser ;;
  let '(unk, rp) := Pop_u64 rp in
  size <- GetWriteBufferSize ;;
  let count_entries := size / EntryLayout.sizeof in
  let entries := repeat EntryLayout.zero (Z.to_nat count_entries) in
  r <- invoke (fun _ => Directory_Read backend count_entries)
              (DirectoryBackend.Read backend count_entries) ;;
  let '(read_entries, produced) := r in
  let entries := stored entries produced in
  let output := flat_map EntryLayout.bytes entries in
  WriteBuffer output ;;
  ResponseBuilder 4 0 0 ;;
  Push (Param_code RESULT_SUCCESS) ;;
  Push (Param_u64 read_entries).

Definition IDirectory_GetEntryCount (backend : DB) : M unit :=
  count <- invoke (fun _ => Directory_GetEntryCount backend)
                  (DirectoryBackend.GetEntryCount backend) ;;
  ResponseBuilder 4 0 0 ;;
  Push (Param_code RESULT_SUCCESS) ;;
  Push (Param_u64 count).

(** *** class IFileSystem *)

Definition IFileSystem_CreateFile (backend : FB) : M unit :=
  rp <- NewRequestParser ;;
  file_buffer <- ReadBuffer ;;
  let name := until_zero file_buffer in
  let '(mode, rp) := Pop_u64 rp in
  let '(size, rp) := Pop_u32 rp in
  ResponseBuilder 2 0 0 ;;
  code <- invoke (fun _ => FileSystem_CreateFile backend name size)
                 (FileSystemBackend.CreateFile backend name size) ;;
  Push (Param_code code).

Definition IFileSystem_DeleteFile (backend : FB) : M unit :=
  rp <- NewRequestParser ;;
  file_buffer <- ReadBuffer ;;
  let name := until_zero file_buffer in
  ResponseBuilder 2 0 0 ;;
  code <- invoke (fun _ => FileSystem_DeleteFile backend name)
                 (FileSystemBackend.DeleteFile backend name) ;;
  Push (Param_code code).

Definition IFileSystem_CreateDirectory (backend : FB) : M unit :=
  rp <- NewRequestParser ;;
  file_buffer <- ReadBuffer ;;
  let name := until_zero file_buffer in
  ResponseBuilder 2 0 0 ;;
  code <- invoke (fun _ => FileSystem_CreateDirectory backend name)
                 (FileSystemBackend.CreateDirectory backend name) ;;
  Push (Param_code code).

Definition IFileSystem_OpenFile (backend : FB) : M unit :=
  rp <- NewRequestParser ;;
  file_buffer <- ReadBuffer ;;
  let name := until_zero file_buffer in
  let '(mode, rp) := Pop_u32 rp in
  result <- invoke (fun _ => FileSystem_OpenFile backend name mode)
                   (FileSystemBackend.OpenFile backend name mode) ;;
  if Failed result then
    ResponseBuilder 2 0 0 ;;
    Push (Param_code (Code result))
  else
    file <- Unwrap result ;;
    ResponseBuilder 2 0 1 ;;
    Push (Param_code RESULT_SUCCESS) ;;
    PushIpcInterface (IFile file).

Definition IFileSystem_OpenDirectory (backend : FB) : M unit :=
  rp <- NewRequestParser ;;
  file_buffer <- ReadBuffer ;;
  let name := until_zero file_buffer in
  let '(filter_flags, rp) := Pop_u32 rp in
  result <- invoke (fun _ => FileSystem_OpenDirectory backend name)
                   (FileSystemBackend.OpenDirectory backend name) ;;
  if Failed result then
    ResponseBuilder 2 0 0 ;;
    Push (Param_code (Code result))
  else
    dir <- Unwrap result ;;
    ResponseBuilder 2 0 1 ;;
    Push (Param_code RESULT_SUCCESS) ;;
    PushIpcInterface (IDirectory dir).

Definition IFileSystem_GetEntryType (backend : FB) : M unit :=
  rp <- NewRequestParser ;;
  file_buffer <- ReadBuffer ;;
  let name := until_zero file_buffer in
  result <- invoke (fun _ => FileSystem_GetEntryType backend name)
                   (FileSystemBackend.GetEntryType backend name) ;;
  if Failed result then
    ResponseBuilder 2 0 0 ;;
    Push (Param_code (Code result))
  else
    ResponseBuilder 3 0 0 ;;
    Push (Param_code RESULT_SUCCESS) ;;
    type <- Deref result ;;
    Push (Param_u32 (u32 type)).

Definition IFileSystem_Commit (backend : FB) : M unit :=
  ResponseBuilder 2 0 0 ;;
  Push (Param_code RESULT_SUCCESS).

(** *** class FSP_SRV *)

Record FSP_SRV : Type := {
  romfs : option FB    (* std::unique_ptr<FileSys::FileSystemBackend> romfs *)
}.

Definition OpenFileSystem (type : Type_) (path : Path) : M (ResultVal FB) :=
  invoke (fun res => Mounts_OpenFileSystem type path (Succeeded res))
         (Mounts.OpenFileSystem type path).

Definition FSP_SRV_TryLoadRomFS (self : FSP_SRV) : M FSP_SRV :=
  match romfs self with
  | Some _ => ret self
  | None =>
      let unused := Path_default in
      res <- OpenFileSystem RomFS unused ;;
      if Succeeded res then
        fs <- Unwrap res ;;
        ret {| romfs := Some fs |}
      else ret self
  end.

Definition FSP_SRV_Initialize : M unit :=
  ResponseBuilder 2 0 0 ;;
  Push (Param_code RESULT_SUCCESS).

Definition FSP_SRV_MountSdCard : M unit :=
  let unused := Path_default in
  res <- OpenFileSystem SDMC unused ;;
  filesystem <- Unwrap res ;;
  ResponseBuilder 2 0 1 ;;
  Push (Param_code RESULT_SUCCESS) ;;
  PushIpcInterface (IFileSystem filesystem).

Definition FSP_SRV_CreateSaveData : M unit :=
  rp <- NewRequestParser ;;
  let '(save_struct, rp) := PopRaw 16 rp in
  let '(save_create_struct, rp) := PopRaw 16 rp in
  let '(uid, rp) := PopRaw 4 rp in
  ResponseBuilder 2 0 0 ;;
  Push (Param_code RESULT_SUCCESS).

Definition FSP_SRV_MountSaveData : M unit :=
  let unused := Path_default in
  res <- OpenFileSystem SaveData unused ;;
  filesystem <- Unwrap res ;;
  ResponseBuilder 2 0 1 ;;
  Push (Param_code RESULT_SUCCESS) ;;
  PushIpcInterface (IFileSystem filesystem).

Definition FSP_SRV_GetGlobalAccessLogMode : M unit :=
  ResponseBuilder 3 0 0 ;;
  Push (Param_code RESULT_SUCCESS) ;;
  Push (Param_u32 5).

Definition FSP_SRV_OpenDataStorageByCurrentProcess (self : FSP_SRV) : M FSP_SRV :=
  self <- FSP_SRV_TryLoadRomFS self ;;
  match romfs self with
  | None =>
      ResponseBuilder 2 0 0 ;;
      Push (Param_code (ResultCode_raw (u32 (-1)))) ;;
      ret self
  | Some fs =>
      storage <- invoke (fun _ => FileSystem_OpenFile fs [] 0)
                        (FileSystemBackend.OpenFile fs [] 0) ;;
      if Failed storage then
        ResponseBuilder 2 0 0 ;;
        Push (Param_code (Code storage)) ;;
        ret self
      else
        ResponseBuilder 2 0 1 ;;
        Push (Param_code RESULT_SUCCESS) ;;
        s <- Unwrap storage ;;
        PushIpcInterface (IStorage s) ;;
        ret self
  end.

Definition FSP_SRV_OpenRomStorage (self : FSP_SRV) : M FSP_SRV :=
  FSP_SRV_OpenDataStorageByCurrentProcess self.

(** *** Serving a run of requests on one FSP_SRV instance

    Commands 200 and 203 of the function table.  Each request comes
    with its own context; the instance, the world and the log carry
    over from one request to the next. *)

Inductive DataStorageCommand : Type :=
| Command_OpenDataStorageByCurrentProcess   (* 200 *)
| Command_OpenRomStorage.                   (* 203 *)

Definition handler (c : DataStorageCommand) : FSP_SRV -> M FSP_SRV :=
  match c with
  | Command_OpenDataStorageByCurrentProcess => FSP_SRV_OpenDataStorageByCurrentProcess
  | Command_OpenRomStorage => FSP_SRV_OpenRomStorage
  end.

Record Served : Type := {
  instance : FSP_SRV;
  final_world : W;
  final_calls : list (Call SB DB FB);
  answered : list (HLERequestContext SB DB FB)
}.

Fixpoint serve (requests : list (DataStorageCommand * HLERequestContext SB DB FB))
         (self : FSP_SRV) (w : W) (log : list (Call SB DB FB)) : option Served :=
  match requests with
  | [] => Some {| instance := self; final_world := w; final_calls := log;
                  answered := [] |}
  | (c, request) :: rest =>
      match handler c self {| world := w; calls := log; ctx := request |} with
      | Returned self' m =>
          match serve rest self' (world m) (calls m) with
          | Some r => Some {| instance := instance r;
                              final_world := final_world r;
                              final_calls := final_calls r;
                              answered := ctx m :: answered r |}
          | None => None
          end
      | AssertionFailed _ => None
      | Thrown _ => None
      end
  end.

End Service.

Arguments Machine : clear implicits.
Arguments Outcome : clear implicits.
Arguments FSP_SRV : clear implicits.
Arguments Served : clear implicits.
Arguments Returned {W SB DB FB A} a m.
Arguments AssertionFailed {W SB DB FB A} m.
Arguments Thrown {W SB DB FB A} m.

(** ** Reading a request's arguments

    The scalar a handler pops at word [i] of the argument block. *)

Definition u32_at {SB DB FB} (c : HLERequestContext SB DB FB) (i : nat) : Z :=
  fst (Pop_u32 {| words := cmd_buf c; index := i |}).

Definition u64_at {SB DB FB} (c : HLERequestContext SB DB FB) (i : nat) : Z :=
  fst (Pop_u64 {| words := cmd_buf c; index := i |}).

Definition s64_at {SB DB FB} (c : HLERequestContext SB DB FB) (i : nat) : Z :=
  fst (Pop_s64 {| words := cmd_buf c; index := i |}).

(** A context as a handler receives it: arguments, input buffer and
    output capacity, nothing written and no reply yet. *)
Definition request {SB DB FB} (args : list Z) (input : list byte) (capacity : Z)
  : HLERequestContext SB DB FB :=
  {| cmd_buf := args; read_buffer := input; write_buffer_size := capacity;
     written := []; reply := None |}.

(** The two words of a 64-bit argument, low word first. *)
Definition words64 (x : Z) : list Z := [x mod 2 ^ 32; (x / 2 ^ 32) mod 2 ^ 32].

(** Whether a call of the log is an open of the given mount. *)
Definition is_open {SB DB FB} (type : Type_) (c : Call SB DB FB) : bool :=
  match c with
  | Mounts_OpenFileSystem t _ _ => Type_eqb t type
  | _ => false
  end.

(** ** An in-memory backend for concrete runs

    A storage object is the bytes of its file, a directory the entries
    left to read, a filesystem a list of named files.  The world counts
    the attempts to open the RomFS archive that will still fail;
    neither an SD card nor save data is registered. *)

Module MemoryBackend.

Definition World : Type := nat.
Definition Storage : Type := list byte.
Definition Entry : Type := (byte * byte)%type.
Definition Directory : Type := list Entry.
Definition FileSystem : Type := list (list byte * list byte).

Definition not_found : ResultCode := ResultCode_raw 1.

Fixpoint lookup (name : list byte) (fs : FileSystem) : option (list byte) :=
  match fs with
  | [] => None
  | (n, data) :: rest =>
      if list_eq_dec Byte.byte_eq_dec n name then Some data else lookup name rest
  end.

#[global] Instance storage : StorageBackend.t World Storage := {|
  StorageBackend.Read file offset length w :=
    let data := firstn (Z.to_nat length) (skipn (Z.to_nat offset) file) in
    ((MakeResult (Z.of_nat (List.length data)), data), w);
  StorageBackend.Write file offset length flush data w := (MakeResult length, w);
  StorageBackend.Flush file w := (false, w);
  StorageBackend.SetSize file size w := (false, w);
  StorageBackend.GetSize file w := (Z.of_nat (List.length file), w)
|}.

#[global] Instance directory : DirectoryBackend.t World Directory Entry := {|
  DirectoryBackend.Read dir count w :=
    let produced := firstn (Z.to_nat count) dir in
    ((Z.of_nat (List.length produced), produced), w);
  DirectoryBackend.GetEntryCount dir w := (Z.of_nat (List.length dir), w)
|}.

#[global] Instance filesystem : FileSystemBackend.t World FileSystem Storage Directory := {|
  FileSystemBackend.CreateFile fs name size w := (RESULT_SUCCESS, w);
  FileSystemBackend.DeleteFile fs name w := (RESULT_SUCCESS, w);
  FileSystemBackend.CreateDirectory fs name w := (RESULT_SUCCESS, w);
  FileSystemBackend.OpenFile fs name mode w :=
    match lookup name fs with
    | Some data => (MakeResult data, w)
    | None => (ResultError not_found, w)
    end;
  FileSystemBackend.OpenDirectory fs name w := (ResultError not_found, w);
  FileSystemBackend.GetEntryType fs name w :=
    match lookup name fs with
    | Some _ => (MakeResult 2, w)
    | None => (ResultError not_found, w)
    end
|}.

(** The archive holds one file, named by the empty path. *)
Definition archive : FileSystem := [([], [x01; x02; x03; x04])].

#[global] Instance mounts : Mounts.t World FileSystem := {|
  Mounts.OpenFileSystem type path w :=
    match type with
    | RomFS =>
        match w with
        | O => (MakeResult archive, O)
        | S n => (ResultError (ResultCode_raw (u32 (-1))), n)
        end
    | SaveData | SDMC => (ResultError (ResultCode_raw (u32 (-1))), w)
    end
|}.

(** The host allocates vectors of up to 4 GiB. *)
#[global] Instance host : Host.t World := {|
  Host.allocates size w := size <=? 2 ^ 32
|}.

#[global] Instance layout : EntryLayout.t Entry := {|
  EntryLayout.sizeof := 2;
  EntryLayout.zero := (x00, x00);
  EntryLayout.bytes e := [fst e; snd e]
|}.

Definition machine (w : World) (c : HLERequestContext Storage Directory FileSystem)
  : Machine World Storage Directory FileSystem :=
  {| world := w; calls := []; ctx := c |}.

End MemoryBackend.

(** ** Vocabulary of the statements *)

(** The backend was not reached and nothing went to the caller's
    output buffer. *)
Definition untouched {W SB DB FB} (m m' : Machine W SB DB FB) : Prop :=
  world m' = world m /\ calls m' = calls m /\
  written (ctx m') = written (ctx m).

(** The handler [h] answers the request of [m] with the validation
    error [d] of module FS, and no more. *)
Definition rejects {W SB DB FB} (h : M (W := W) (SB := SB) (DB := DB) (FB := FB) unit)
  (m : Machine W SB DB FB) (d : ErrorDescription) : Prop :=
  exists m', h m = Returned tt m' /\
    status (ctx m') = Some (ResultCode_of FS d) /\ untouched m m'.

(** The handler [h] returns and has pushed a status code. *)
Definition answers {W SB DB FB} (h : M (W := W) (SB := SB) (DB := DB) (FB := FB) unit)
  (m : Machine W SB DB FB) : Prop :=
  exists m' code, h m = Returned tt m' /\ status (ctx m') = Some code.

(** The validation the three handlers share. *)
Definition invalid (offset length : Z) (d : ErrorDescription) : Prop :=
  (length < 0 /\ d = InvalidLength) \/
  (0 <= length /\ offset < 0 /\ d = InvalidOffset).

(** Two requests that differ at most in the words before [from] of
    their argument blocks. *)
Definition differ_before {SB DB FB} (from : nat) (c c' : HLERequestContext SB DB FB)
  : Prop :=
  (forall i, (from <= i)%nat -> nth i (cmd_buf c) 0 = nth i (cmd_buf c') 0) /\
  read_buffer c = read_buffer c' /\
  write_buffer_size c = write_buffer_size c' /\
  written c = written c' /\
  reply c = reply c'.

(** The reply of a handler that pushed [ps] and attached [objects]. *)
Definition replied {SB DB FB} (normal move : Z) (ps : list Param)
  (objects : list (ServiceObject SB DB FB)) : option (Reply SB DB FB) :=
  Some {| normal_params_size := normal; num_handles_to_copy := 0;
          num_objects_to_move := move; params := ps; interfaces := objects |}.

(** The calls of a log that opened the RomFS archive, and the two
    shapes such a call has. *)
Definition romfs_opens {SB DB FB} (log : list (Call SB DB FB)) : list (Call SB DB FB) :=
  filter (is_open RomFS) log.

Definition failed_open {SB DB FB} : Call SB DB FB :=
  Mounts_OpenFileSystem RomFS Path_default false.

Definition successful_open {SB DB FB} : Call SB DB FB :=
  Mounts_OpenFileSystem RomFS Path_default true.

(** [romfs->OpenFile({}, {})]: the whole archive as one storage. *)
Definition open_archive {SB DB FB} (fs : FB) : Call SB DB FB :=
  FileSystem_OpenFile fs [] 0.

(** ** Concrete requests against the in-memory backend *)

Module Runs.
Import MemoryBackend.

Definition four_bytes : Storage := [x01; x02; x03; x04].

(** Storage Read, offset 0, length -1. *)
Definition storage_bad_length :=
  machine 0%nat (request (words64 0 ++ words64 (-1)) [] 16).
(** Storage Read, offset -8, length 4. *)
Definition storage_bad_offset :=
  machine 0%nat (request (words64 (-8) ++ words64 4) [] 16).
(** File Read or Write, offset 0, length -1. *)
Definition file_bad_length :=
  machine 0%nat (request (words64 0 ++ words64 0 ++ words64 (-1)) [x05] 16).
(** File Read or Write, offset -8, length 4. *)
Definition file_bad_offset :=
  machine 0%nat (request (words64 0 ++ words64 (-8) ++ words64 4) [x05] 16).
(** Storage Read, offset 0, length 10. *)
Definition storage_read_ten :=
  machine 0%nat (request (words64 0 ++ words64 10) [] 16).
(** File Read, offset 0, length 10. *)
Definition file_read_ten :=
  machine 0%nat (request (words64 0 ++ words64 0 ++ words64 10) [] 16).
(** Directory Read into a buffer of six bytes, room for three entries. *)
Definition one_entry : Directory := [(x41, x42)].
Definition directory_read_three :=
  machine 0%nat (request (words64 0) [] 6).
(** OpenFile of the empty path, which the archive holds, and of the
    path "a", which it does not; mode 1. *)
Definition open_present := machine 0%nat (request [1] [x00; x62] 0).
Definition open_missing := machine 0%nat (request [1] [x61; x00; x62] 0).
(** CreateFile of "a" with size 100, under mode 1 and under mode 7. *)
Definition create_mode_1 := machine 0%nat (request (words64 1 ++ [100]) [x61; x00] 0).
Definition create_mode_7 := machine 0%nat (request (words64 7 ++ [100]) [x61; x00] 0).
(** A request without arguments: the mounts, the storage opens. *)
Definition plain (w : World) := machine w (request [] [] 0).
(** CreateSaveData with descriptors and a user id of all-ones words. *)
Definition create_save_data := machine 0%nat (request (repeat 4294967295 36) [] 0).
(** Four storage opens in a row, each with its own context. *)
Definition four_opens
  : list (DataStorageCommand * HLERequestContext Storage Directory FileSystem) :=
  [(Command_OpenDataStorageByCurrentProcess, request [] [] 0);
   (Command_OpenRomStorage, request [] [] 0);
   (Command_OpenDataStorageByCurrentProcess, request [] [] 0);
   (Command_OpenRomStorage, request [] [] 0)].
End Runs.

(** ** The function tables

    Each constructor registers a static table of
    [{command id, handler or nullptr, name}]. *)

Module FunctionTables.
Import Stdlib.Strings.String.
Local Open Scope string_scope.

(** Modelled from the spec: [FunctionInfo] of core/hle/service/service.h,
    which is not among the sources at hand: a command id, the handler
    or nothing for a command that is declared only, and a name. *)
Record FunctionInfo (H : Type) : Type := entry {
  expected_header : Z;
  handler_callback : option H;
  name : String.string
}.
Arguments entry {H}.
Arguments expected_header {H}.
Arguments handler_callback {H}.
Arguments name {H}.

(** The command ids of a table, in the order of the table. *)
Definition ids {H} (table : list (FunctionInfo H)) : list Z :=
  map expected_header table.

(** The commands of a table that have a handler. *)
Fixpoint implemented {H} (table : list (FunctionInfo H)) : list (Z * H) :=
  match table with
  | [] => []
  | info :: rest =>
      match handler_callback info with
      | Some h => (expected_header info, h) :: implemented rest
      | None => implemented rest
      end
  end.

Fixpoint strictly_increasing (l : list Z) : bool :=
  match l with
  | a :: (b :: _) as rest => (a <? b)%Z && strictly_increasing rest
  | _ => true
  end.

Section Tables.
Context {W SB DB FB Entry : Type}.
Context {storage : StorageBackend.t W SB}
        {directory : DirectoryBackend.t W DB Entry}
        {filesystem : FileSystemBackend.t W FB SB DB}
        {mounts : Mounts.t W FB}
        {layout : EntryLayout.t Entry}
        {host : Host.t W}.
Local Abbreviation Mh := (M (W := W) (SB := SB) (DB := DB) (FB := FB)).

(** A handler of FSP_SRV that does not touch the members of the
    service. *)
Definition stateless (h : Mh unit) (self : FSP_SRV FB) : Mh (FSP_SRV FB) :=
  bind h (fun _ => ret self).

Definition IStorage_functions : list (FunctionInfo (SB -> Mh unit)) :=
  [entry 0 (Some IStorage_Read) "Read";
   entry 1 None "Write";
   entry 2 None "Flush";
   entry 3 None "SetSize";
   entry 4 None "GetSize";
   entry 5 None "OperateRange"].

Definition IFile_functions : list (FunctionInfo (SB -> Mh unit)) :=
  [entry 0 (Some IFile_Read) "Read";
   entry 1 (Some IFile_Write) "Write";
   entry 2 (Some IFile_Flush) "Flush";
   entry 3 (Some IFile_SetSize) "SetSize";
   entry 4 (Some IFile_GetSize) "GetSize";
   entry 5 None "OperateRange"].

Definition IDirectory_functions : list (FunctionInfo (DB -> Mh unit)) :=
  [entry 0 (Some IDirectory_Read) "Read";
   entry 1 (Some IDirectory_GetEntryCount) "GetEntryCount"].

Definition IFileSystem_functions : list (FunctionInfo (FB -> Mh unit)) :=
  [entry 0 (Some IFileSystem_CreateFile) "CreateFile";
   entry 1 (Some IFileSystem_DeleteFile) "DeleteFile";
   entry 2 (Some IFileSystem_CreateDirectory) "CreateDirectory";
   entry 3 None "DeleteDirectory";
   entry 4 None "DeleteDirectoryRecursively";
   entry 5 None "RenameFile";
   entry 6 None "RenameDirectory";
   entry 7 (Some IFileSystem_GetEntryType) "GetEntryType";
   entry 8 (Some IFileSystem_OpenFile) "OpenFile";
   entry 9 (Some IFileSystem_OpenDirectory) "OpenDirectory";
   entry 10 (Some IFileSystem_Commit) "Commit";
   entry 11 None "GetFreeSpaceSize";
   entry 12 None "GetTotalSpaceSize";
   entry 13 None "CleanDirectoryRecursively";
   entry 14 None "GetFileTimeStampRaw";
   entry 15 None "QueryEntry"].

Definition FSP_SRV_functions : list (FunctionInfo (FSP_SRV FB -> Mh (FSP_SRV FB))) :=
  [entry 0 None "MountContent";
   entry 1 (Some (stateless FSP_SRV_Initialize)) "Initialize";
   entry 2 None "OpenDataFileSystemByCurrentProcess";
   entry 7 None "OpenFileSystemWithPatch";
   entry 8 None "OpenFileSystemWithId";
   entry 9 None "OpenDataFileSystemByApplicationId";
   entry 11 None "OpenBisFileSystem";
   entry 12 None "OpenBisStorage";
   entry 13 None "InvalidateBisCache";
   entry 17 None "OpenHostFileSystem";
   entry 18 (Some (stateless FSP_SRV_MountSdCard)) "MountSdCard";
   entry 19 None "FormatSdCardFileSystem";
   entry 21 None "DeleteSaveDataFileSystem";
   entry 22 (Some (stateless FSP_SRV_CreateSaveData)) "CreateSaveData";
   entry 23 None "CreateSaveDataFileSystemBySystemSaveDataId";
   entry 24 None "RegisterSaveDataFileSystemAtomicDeletion";
   entry 25 None "DeleteSaveDataFileSystemBySaveDataSpaceId";
   entry 26 None "FormatSdCardDryRun";
   entry 27 None "IsExFatSupported";
   entry 28 None "DeleteSaveDataFileSystemBySaveDataAttribute";
   entry 30 None "OpenGameCardStorage";
   entry 31 None "OpenGameCardFileSystem";
   entry 32 None "ExtendSaveDataFileSystem";
   entry 33 None "DeleteCacheStorage";
   entry 34 None "GetCacheStorageSize";
   entry 51 (Some (stateless FSP_SRV_MountSaveData)) "MountSaveData";
   entry 52 None "OpenSaveDataFileSystemBySystemSaveDataId";
   entry 53 None "OpenReadOnlySaveDataFileSystem";
   entry 57 None "ReadSaveDataFileSystemExtraDataBySaveDataSpaceId";
   entry 58 None "ReadSaveDataFileSystemExtraData";
   entry 59 None "WriteSaveDataFileSystemExtraData";
   entry 60 None "OpenSaveDataInfoReader";
   entry 61 None "OpenSaveDataInfoReaderBySaveDataSpaceId";
   entry 62 None "OpenCacheStorageList";
   entry 64 None "OpenSaveDataInternalStorageFileSystem";
   entry 65 None "UpdateSaveDataMacForDebug";
   entry 66 None "WriteSaveDataFileSystemExtraData2";
   entry 80 None "OpenSaveDataMetaFile";
   entry 81 None "OpenSaveDataTransferManager";
   entry 82 None "OpenSaveDataTransferManagerVersion2";
   entry 100 None "OpenImageDirectoryFileSystem";
   entry 110 None "OpenContentStorageFileSystem";
   entry 200 (Some FSP_SRV_OpenDataStorageByCurrentProcess) "OpenDataStorageByCurrentProcess";
   entry 201 None "OpenDataStorageByProgramId";
   entry 202 None "OpenDataStorageByDataId";
   entry 203 (Some FSP_SRV_OpenRomStorage) "OpenRomStorage";
   entry 400 None "OpenDeviceOperator";
   entry 500 None "OpenSdCardDetectionEventNotifier";
   entry 501 None "OpenGameCardDetectionEventNotifier";
   entry 510 None "OpenSystemDataUpdateEventNotifier";
   entry 511 None "NotifySystemDataUpdateEvent";
   entry 600 None "SetCurrentPosixTime";
   entry 601 None "QuerySaveDataTotalSize";
   entry 602 None "VerifySaveDataFileSystem";
   entry 603 None "CorruptSaveDataFileSystem";
   entry 604 None "CreatePaddingFile";
   entry 605 None "DeleteAllPaddingFiles";
   entry 606 None "GetRightsId";
   entry 607 None "RegisterExternalKey";
   entry 608 None "UnregisterAllExternalKey";
   entry 609 None "GetRightsIdByPath";
   entry 610 None "GetRightsIdAndKeyGenerationByPath";
   entry 611 None "SetCurrentPosixTimeWithTimeDifference";
   entry 612 None "GetFreeSpaceSizeForSaveData";
   entry 613 None "VerifySaveDataFileSystemBySaveDataSpaceId";
   entry 614 None "CorruptSaveDataFileSystemBySaveDataSpaceId";
   entry 615 None "QuerySaveDataInternalStorageTotalSize";
   entry 620 None "SetSdCardEncryptionSeed";
   entry 630 None "SetSdCardAccessibility";
   entry 631 None "IsSdCardAccessible";
   entry 640 None "IsSignedSystemPartitionOnSdCardValid";
   entry 700 None "OpenAccessFailureResolver";
   entry 701 None "GetAccessFailureDetectionEvent";
   entry 702 None "IsAccessFailureDetected";
   entry 710 None "ResolveAccessFailure";
   entry 720 None "AbandonAccessFailure";
   entry 800 None "GetAndClearFileSystemProxyErrorInfo";
   entry 1000 None "SetBisRootForHost";
   entry 1001 None "SetSaveDataSize";
   entry 1002 None "SetSaveDataRootPath";
   entry 1003 None "DisableAutoSaveDataCreation";
   entry 1004 None "SetGlobalAccessLogMode";
   entry 1005 (Some (stateless FSP_SRV_GetGlobalAccessLogMode)) "GetGlobalAccessLogMode";
   entry 1006 None "OutputAccessLogToSdCard";
   entry 1007 None "RegisterUpdatePartition";
   entry 1008 None "OpenRegisteredUpdatePartition";
   entry 1009 None "GetAndClearMemoryReportInfo";
   entry 1100 None "OverrideSaveDataTransferTokenSignVerificationKey"].

End Tables.
End FunctionTables.

(** ** Vocabulary of the further statements *)

(** The machine a handler leaves, returned or stopped. *)
Definition final {W SB DB FB A} (o : Outcome W SB DB FB A) : Machine W SB DB FB :=
  match o with
  | Returned _ m => m
  | AssertionFailed m => m
  | Thrown m => m
  end.

(** Two machines with the same world, log, output and reply. *)
Definition same_effects {W SB DB FB} (m m' : Machine W SB DB FB) : Prop :=
  world m = world m' /\ calls m = calls m' /\
  written (ctx m) = written (ctx m') /\ reply (ctx m) = reply (ctx m').

(** Two requests that differ at most in their input buffers, and
    there only past the first zero byte. *)
Definition same_path {SB DB FB} (c c' : HLERequestContext SB DB FB) : Prop :=
  until_zero (read_buffer c) = until_zero (read_buffer c') /\
  cmd_buf c = cmd_buf c' /\
  write_buffer_size c = write_buffer_size c' /\
  written c = written c' /\
  reply c = reply c'.

(** [l'] is [l] with at most [n] elements added at its end. *)
Definition grown_by {A} (n : nat) (l l' : list A) : Prop :=
  exists added, l' = l ++ added /\ (length added <= n)%nat.

(** The bounds of what a handler did: from [m] to [m'] the output
    got at most [writes] payloads and the log at most [backend_calls]
    calls, both added at the end of what was there. *)
Definition bounded_effects {W SB DB FB} (writes backend_calls : nat)
  (m m' : Machine W SB DB FB) : Prop :=
  grown_by writes (written (ctx m)) (written (ctx m')) /\
  grown_by backend_calls (calls m) (calls m').

(** The words a pushed value takes in the reply, as the sizes the
    handlers declare count them: two for a status, two for a 64-bit
    result, one for a 32-bit result. *)
Definition words_of (p : Param) : Z :=
  match p with
  | Param_code _ => 2
  | Param_u32 _ => 1
  | Param_u64 _ => 2
  end.

Definition is_result (p : Param) : bool :=
  match p with
  | Param_code _ => false
  | _ => true
  end.

(** A reply whose builder was declared for what was pushed: a status
    first and results after it, as many words as declared, no handle
    to copy, and as many objects as declared, one at most. *)
Definition well_formed {SB DB FB} (r : Reply SB DB FB) : bool :=
  match params r with
  | Param_code _ :: results =>
      forallb is_result results &&
      (normal_params_size r =? 2 + fold_right Z.add 0 (map words_of results))
  | _ => false
  end
  && (num_handles_to_copy r =? 0)
  && (num_objects_to_move r =? Z.of_nat (length (interfaces r)))
  && (length (interfaces r) <=? 1)%nat.

(** The archive a storage open works on, and the world it is opened
    in: the cached filesystem when there is one, else what an open of
    the RomFS mount gives. *)
Definition archive_after_load {W FB} {mounts : Mounts.t W FB}
  (self : FSP_SRV FB) (w : W) : option FB * W :=
  match romfs self with
  | Some fs => (Some fs, w)
  | None =>
      match Mounts.OpenFileSystem RomFS Path_default w with
      | (MakeResult fs, w') => (Some fs, w')
      | (ResultError _, w') => (None, w')
      end
  end.

(** A handler that returned left a well-formed reply; one that
    stopped, at an assertion or by an exception, left the reply as it
    was. *)
Definition answered_in_order {W SB DB FB A} (m : Machine W SB DB FB)
  (o : Outcome W SB DB FB A) : Prop :=
  match o with
  | Returned _ m' => option_map well_formed (reply (ctx m')) = Some true
  | AssertionFailed m' => reply (ctx m') = reply (ctx m)
  | Thrown m' => reply (ctx m') = reply (ctx m)
  end.

(** ** Further concrete requests *)

(** A second backend: a storage that fails every read and write with
    the code it holds, after having stored one byte; every mount
    registered, with the archive of the in-memory backend behind it. *)
Module SecondBackend.

Definition World : Type := unit.
Definition Storage : Type := ResultCode.

#[global] Instance storage : StorageBackend.t World Storage := {|
  StorageBackend.Read code offset length w := ((ResultError code, [xff]), w);
  StorageBackend.Write code offset length flush data w := (ResultError code, w);
  StorageBackend.Flush code w := (false, w);
  StorageBackend.SetSize code size w := (false, w);
  StorageBackend.GetSize code w := (0, w)
|}.

#[global] Instance mounts : Mounts.t World MemoryBackend.FileSystem := {|
  Mounts.OpenFileSystem type path w := (MakeResult MemoryBackend.archive, w)
|}.

#[global] Instance host : Host.t World := {|
  Host.allocates size w := size <=? 2 ^ 32
|}.

Definition machine
  (c : HLERequestContext Storage MemoryBackend.Directory MemoryBackend.FileSystem)
  : Machine World Storage MemoryBackend.Directory MemoryBackend.FileSystem :=
  {| world := tt; calls := []; ctx := c |}.

Definition io_error : ResultCode := ResultCode_raw 2.

(** Storage Read and File Read of four bytes at offset 0. *)
Definition storage_read_four := machine (request (words64 0 ++ words64 4) [] 16).
Definition file_read_four :=
  machine (request (words64 0 ++ words64 0 ++ words64 4) [] 16).
(** File Write, offset 3, length 9, with an input buffer of two bytes. *)
Definition file_write :=
  machine (request (words64 0 ++ words64 3 ++ words64 9) [x61; x62] 0).

End SecondBackend.

Module MoreRuns.
Import MemoryBackend.

(** File Write, offset 3, length 9, with an input buffer of two bytes. *)
Definition file_write :=
  machine 0%nat (request (words64 0 ++ words64 3 ++ words64 9) [x61; x62] 0).
(** The path "a" with and without bytes after its terminator. *)
Definition path_bare := machine 0%nat (request [1; 0; 100] [x61; x00] 0).
Definition path_trailing :=
  machine 0%nat (request [1; 0; 100] [x61; x00; x62; x63; x00; x64] 0).
(** Directory Read into a buffer of one byte, less than an entry. *)
Definition directory_read_small := machine 0%nat (request (words64 0) [] 1).
(** Storage Read and File Read of 2^63-1 bytes at offset 0, more than
    the host allocates. *)
Definition storage_read_huge :=
  machine 0%nat (request (words64 0 ++ words64 (2 ^ 63 - 1)) [] 16).
Definition file_read_huge :=
  machine 0%nat (request (words64 0 ++ words64 0 ++ words64 (2 ^ 63 - 1)) [] 16).
(** The commands with a handler, over the in-memory backend. *)
Definition file_commands :=
  FunctionTables.implemented
    (FunctionTables.IFile_functions
       (W := World) (SB := Storage) (DB := Directory) (FB := FileSystem)).
Definition directory_commands :=
  FunctionTables.implemented
    (FunctionTables.IDirectory_functions
       (W := World) (SB := Storage) (DB := Directory) (FB := FileSystem)).
End MoreRuns.

(** * Properties *)

Ltac run_handler :=
  cbv [bind ret invoke with_ctx Unwrap Deref vector_u8 NewRequestParser ReadBuffer
       GetWriteBufferSize WriteBuffer set_reply ResponseBuilder Push
       PushIpcInterface OpenFileSystem Pop_s64 Pop_u64 Pop_u32];
  cbn [world calls ctx cmd_buf read_buffer write_buffer_size written reply
       words index fst snd].

(** Names the decoded offset and length, so that later steps leave
    them alone. *)
Ltac name_arguments Ho Hl :=
  match type of Ho with 0 <= ?o =>
    let offset := fresh "offset" in
    set (offset := o) in *; clearbody offset end;
  match type of Hl with 0 <= ?l =>
    let len := fresh "len" in
    set (len := l) in *; clearbody len end.

Section Validation.
Context {W SB DB FB : Type} {storage : StorageBackend.t W SB} {host : Host.t W}.
Implicit Types (m : Machine W SB DB FB) (backend : SB).

Lemma IStorage_Read_rejects backend m d :
  invalid (s64_at (ctx m) 0) (s64_at (ctx m) 2) d ->
  rejects (IStorage_Read backend) m d.
Proof.
  unfold invalid, rejects, untouched, s64_at, IStorage_Read, status.
  run_handler.
  intros [[Hl ->] | [Hl [Ho ->]]].
  - apply Z.ltb_lt in Hl. rewrite Hl. eexists. split; [reflexivity|].
    cbn. auto.
  - apply Z.ltb_ge in Hl. apply Z.ltb_lt in Ho. rewrite Hl, Ho.
    eexists. split; [reflexivity|]. cbn. auto.
Qed.

Lemma IFile_Read_rejects backend m d :
  invalid (s64_at (ctx m) 2) (s64_at (ctx m) 4) d ->
  rejects (IFile_Read backend) m d.
Proof.
  unfold invalid, rejects, untouched, s64_at, IFile_Read, status.
  run_handler.
  intros [[Hl ->] | [Hl [Ho ->]]].
  - apply Z.ltb_lt in Hl. rewrite Hl. eexists. split; [reflexivity|].
    cbn. auto.
  - apply Z.ltb_ge in Hl. apply Z.ltb_lt in Ho. rewrite Hl, Ho.
    eexists. split; [reflexivity|]. cbn. auto.
Qed.

Lemma IFile_Write_rejects backend m d :
  invalid (s64_at (ctx m) 2) (s64_at (ctx m) 4) d ->
  rejects (IFile_Write backend) m d.
Proof.
  unfold invalid, rejects, untouched, s64_at, IFile_Write, status.
  run_handler.
  intros [[Hl ->] | [Hl [Ho ->]]].
  - apply Z.ltb_lt in Hl. rewrite Hl. eexists. split; [reflexivity|].
    cbn. auto.
  - apply Z.ltb_ge in Hl. apply Z.ltb_lt in Ho. rewrite Hl, Ho.
    eexists. split; [reflexivity|]. cbn. auto.
Qed.

(** C5.  Storage Read, File Read and File Write validate their
    arguments before anything else: a negative length is answered
    with InvalidLength, and a negative offset with a length that is
    not negative is answered with InvalidOffset.  In both cases the
    handler returns with that status, the world and the log of
    backend calls are as they were, and nothing was written to the
    output buffer.  Storage Read pops offset and length at words 0
    and 2; the two File handlers pop an unused 64-bit field first. *)
Theorem invalid_arguments_rejected backend m d :
  (invalid (s64_at (ctx m) 0) (s64_at (ctx m) 2) d ->
   rejects (IStorage_Read backend) m d) /\
  (invalid (s64_at (ctx m) 2) (s64_at (ctx m) 4) d ->
   rejects (IFile_Read backend) m d) /\
  (invalid (s64_at (ctx m) 2) (s64_at (ctx m) 4) d ->
   rejects (IFile_Write backend) m d).
Proof.
  split; [|split].
  - apply IStorage_Read_rejects.
  - apply IFile_Read_rejects.
  - apply IFile_Write_rejects.
Qed.

End Validation.


Lemma invalid_arguments_rejected_witness :
  (rejects (IStorage_Read Runs.four_bytes) Runs.storage_bad_length InvalidLength /\
   rejects (IStorage_Read Runs.four_bytes) Runs.storage_bad_offset InvalidOffset) /\
  (rejects (IFile_Read Runs.four_bytes) Runs.file_bad_length InvalidLength /\
   rejects (IFile_Read Runs.four_bytes) Runs.file_bad_offset InvalidOffset) /\
  (rejects (IFile_Write Runs.four_bytes) Runs.file_bad_length InvalidLength /\
   rejects (IFile_Write Runs.four_bytes) Runs.file_bad_offset InvalidOffset).
Proof.
  repeat split.
  - apply (proj1 (invalid_arguments_rejected Runs.four_bytes Runs.storage_bad_length InvalidLength)).
    left. split; [vm_compute; reflexivity | reflexivity].
  - apply (proj1 (invalid_arguments_rejected Runs.four_bytes Runs.storage_bad_offset InvalidOffset)).
    right. repeat split; vm_compute; congruence.
  - apply (proj1 (proj2 (invalid_arguments_rejected Runs.four_bytes Runs.file_bad_length InvalidLength))).
    left. split; [vm_compute; reflexivity | reflexivity].
  - apply (proj1 (proj2 (invalid_arguments_rejected Runs.four_bytes Runs.file_bad_offset InvalidOffset))).
    right. repeat split; vm_compute; congruence.
  - apply (proj2 (proj2 (invalid_arguments_rejected Runs.four_bytes Runs.file_bad_length InvalidLength))).
    left. split; [vm_compute; reflexivity | reflexivity].
  - apply (proj2 (proj2 (invalid_arguments_rejected Runs.four_bytes Runs.file_bad_offset InvalidOffset))).
    right. repeat split; vm_compute; congruence.
Defined.

Section Reads.
Context {W SB DB FB Entry : Type}.
Context {storage : StorageBackend.t W SB}
        {directory : DirectoryBackend.t W DB Entry}
        {layout : EntryLayout.t Entry}
        {host : Host.t W}.
Implicit Types (m : Machine W SB DB FB).


Lemma skipn_repeat {A} (z : A) (n k : nat) :
  skipn k (repeat z n) = repeat z (n - k).
Proof.
  revert k. induction n as [|n IH]; intros [|k]; simpl; auto.
Qed.

Lemma stored_fresh {A} (z : A) (n : nat) (src : list A) :
  stored (repeat z n) src = firstn n src ++ repeat z (n - length src).
Proof.
  unfold stored. now rewrite repeat_length, skipn_repeat.
Qed.

Lemma zero_bytes_length (n : Z) : 0 <= n -> Z.of_nat (length (zero_bytes n)) = n.
Proof. intros H. unfold zero_bytes. rewrite repeat_length. lia. Qed.

Lemma stored_within (n : Z) (data : list byte) :
  Z.of_nat (length data) <= n ->
  stored (zero_bytes n) data = data ++ repeat x00 (Z.to_nat n - length data).
Proof.
  intros H. unfold zero_bytes. rewrite stored_fresh, firstn_all2 by lia.
  reflexivity.
Qed.

(** C2, amended.  A Storage Read whose offset and length are not
    negative, whose [length] bytes the host can allocate and the
    caller's output buffer can take, and whose backend read succeeds
    having stored no more than [length] bytes, allocates [length] zero
    bytes, lets the backend store into them, and writes the whole
    vector back: [length] bytes, those the backend stored followed by
    the zero bytes it left, whatever count the backend reported.  The
    reply is success alone, with no length value. *)
Theorem IStorage_Read_writes_whole_output (backend : SB) m count data w' :
  0 <= s64_at (ctx m) 0 ->
  0 <= s64_at (ctx m) 2 ->
  Host.allocates (s64_at (ctx m) 2) (world m) = true ->
  s64_at (ctx m) 2 <= write_buffer_size (ctx m) ->
  StorageBackend.Read backend (s64_at (ctx m) 0) (s64_at (ctx m) 2) (world m)
    = ((MakeResult count, data), w') ->
  Z.of_nat (length data) <= s64_at (ctx m) 2 ->
  exists m' output,
    IStorage_Read backend m = Returned tt m' /\
    length (zero_bytes (s64_at (ctx m) 2)) = Z.to_nat (s64_at (ctx m) 2) /\
    output = data ++ repeat x00 (Z.to_nat (s64_at (ctx m) 2) - length data) /\
    Z.of_nat (length output) = s64_at (ctx m) 2 /\
    written (ctx m') = written (ctx m) ++ [output] /\
    reply (ctx m') =
      Some {| normal_params_size := 2; num_handles_to_copy := 0;
              num_objects_to_move := 0;
              params := [Param_code RESULT_SUCCESS]; interfaces := [] |} /\
    world m' = w' /\
    calls m' = calls m ++ [Storage_Read backend (s64_at (ctx m) 0) (s64_at (ctx m) 2)].
Proof.
  unfold s64_at, IStorage_Read. run_handler.
  intros Ho Hl Ha Hcap HR Hdata. name_arguments Ho Hl.
  apply Z.ltb_ge in Ho as Ho'. apply Z.ltb_ge in Hl as Hl'.
  rewrite Hl', Ho', Ha, HR. cbn.
  eexists. eexists. split; [reflexivity|]. cbn.
  rewrite (stored_within _ _ Hdata).
  split; [apply repeat_length|]. split; [reflexivity|].
  split; [|repeat split].
  rewrite length_app, repeat_length. lia.
Qed.

(** C4, amended.  A File Read whose offset and length are not
    negative, whose [length] bytes the host can allocate and the
    caller's output buffer can take, and whose backend read succeeds
    having stored no more than [length] bytes, answers success
    followed by the count the backend reported, which may be less than
    the length asked for.  What goes to the caller's buffer is the
    whole output vector of [length] bytes: the bytes the backend
    stored, then zero bytes. *)
Theorem IFile_Read_reports_count (backend : SB) m count data w' :
  0 <= s64_at (ctx m) 2 ->
  0 <= s64_at (ctx m) 4 ->
  Host.allocates (s64_at (ctx m) 4) (world m) = true ->
  s64_at (ctx m) 4 <= write_buffer_size (ctx m) ->
  0 <= count < 2 ^ 64 ->
  StorageBackend.Read backend (s64_at (ctx m) 2) (s64_at (ctx m) 4) (world m)
    = ((MakeResult count, data), w') ->
  Z.of_nat (length data) <= s64_at (ctx m) 4 ->
  exists m' output,
    IFile_Read backend m = Returned tt m' /\
    reply (ctx m') =
      Some {| normal_params_size := 4; num_handles_to_copy := 0;
              num_objects_to_move := 0;
              params := [Param_code RESULT_SUCCESS; Param_u64 count];
              interfaces := [] |} /\
    output = data ++ repeat x00 (Z.to_nat (s64_at (ctx m) 4) - length data) /\
    Z.of_nat (length output) = s64_at (ctx m) 4 /\
    written (ctx m') = written (ctx m) ++ [output] /\
    world m' = w' /\
    calls m' = calls m ++ [Storage_Read backend (s64_at (ctx m) 2) (s64_at (ctx m) 4)].
Proof.
  unfold s64_at, IFile_Read. run_handler.
  intros Ho Hl Ha Hcap Hc HR Hdata. name_arguments Ho Hl.
  apply Z.ltb_ge in Ho as Ho'. apply Z.ltb_ge in Hl as Hl'.
  rewrite Hl', Ho', Ha, HR. cbn.
  eexists. eexists. split; [reflexivity|]. cbn.
  unfold u64. rewrite (stored_within _ _ Hdata), Z.mod_small by lia.
  split; [reflexivity|]. split; [reflexivity|].
  split; [|repeat split].
  rewrite length_app, repeat_length. lia.
Qed.



End Reads.

Lemma IStorage_Read_writes_whole_output_witness :
  (0 <= s64_at (ctx Runs.storage_read_ten) 0 /\
   0 <= s64_at (ctx Runs.storage_read_ten) 2 /\
   Host.allocates (s64_at (ctx Runs.storage_read_ten) 2)
     (world Runs.storage_read_ten) = true /\
   s64_at (ctx Runs.storage_read_ten) 2
     <= write_buffer_size (ctx Runs.storage_read_ten)) /\
  exists m',
    IStorage_Read Runs.four_bytes Runs.storage_read_ten = Returned tt m' /\
    written (ctx m') = [[x01; x02; x03; x04; x00; x00; x00; x00; x00; x00]] /\
    status (ctx m') = Some RESULT_SUCCESS.
Proof.
  split; [repeat split; vm_compute; congruence|].
  destruct (IStorage_Read_writes_whole_output (DB := MemoryBackend.Directory)
              (FB := MemoryBackend.FileSystem)
              Runs.four_bytes Runs.storage_read_ten 4 Runs.four_bytes 0%nat)
    as (m' & output & Hrun & _ & Hout & _ & Hw & Hr & _);
    [vm_compute; congruence | vm_compute; congruence | reflexivity
     | vm_compute; congruence | reflexivity | vm_compute; congruence |].
  exists m'. split; [exact Hrun|]. split.
  - rewrite Hw, Hout. reflexivity.
  - unfold status. rewrite Hr. reflexivity.
Defined.

(** C2 as stated fails: asked for ten bytes of a file of four, the
    backend reports four, and ten bytes go to the caller's buffer. *)
Lemma IStorage_Read_writes_beyond_count :
  StorageBackend.Read Runs.four_bytes 0 10 (world Runs.storage_read_ten)
    = ((MakeResult 4, Runs.four_bytes), 0%nat) /\
  exists m' output,
    IStorage_Read Runs.four_bytes Runs.storage_read_ten = Returned tt m' /\
    written (ctx m') = [output] /\
    length output = 10%nat /\
    Z.of_nat (length output) <> 4.
Proof.
  split; [reflexivity|].
  eexists. eexists. split; [vm_compute; reflexivity|].
  cbn. split; [reflexivity|]. split; [reflexivity|]. cbn. lia.
Qed.

Lemma IFile_Read_reports_count_witness :
  (0 <= s64_at (ctx Runs.file_read_ten) 2 /\
   0 <= s64_at (ctx Runs.file_read_ten) 4 /\
   Host.allocates (s64_at (ctx Runs.file_read_ten) 4)
     (world Runs.file_read_ten) = true /\
   s64_at (ctx Runs.file_read_ten) 4
     <= write_buffer_size (ctx Runs.file_read_ten)) /\
  exists m',
    IFile_Read Runs.four_bytes Runs.file_read_ten = Returned tt m' /\
    option_map params (reply (ctx m')) = Some [Param_code RESULT_SUCCESS; Param_u64 4] /\
    written (ctx m') = [[x01; x02; x03; x04; x00; x00; x00; x00; x00; x00]].
Proof.
  split; [repeat split; vm_compute; congruence|].
  destruct (IFile_Read_reports_count (DB := MemoryBackend.Directory)
              (FB := MemoryBackend.FileSystem)
              Runs.four_bytes Runs.file_read_ten 4 Runs.four_bytes 0%nat)
    as (m' & output & Hrun & Hr & Hout & _ & Hw & _);
    [vm_compute; congruence | vm_compute; congruence | reflexivity
     | vm_compute; congruence | lia | reflexivity | vm_compute; congruence |].
  exists m'. split; [exact Hrun|]. split.
  - rewrite Hr. reflexivity.
  - rewrite Hw, Hout. reflexivity.
Defined.

(** C4 as stated fails in its example: Read(offset=0, length=10) on a
    file of four bytes answers success with bytes_read = 4, and ten
    bytes, not four, are copied to the caller's buffer. *)
Lemma IFile_Read_copies_beyond_count :
  exists m' output,
    IFile_Read Runs.four_bytes Runs.file_read_ten = Returned tt m' /\
    option_map params (reply (ctx m')) = Some [Param_code RESULT_SUCCESS; Param_u64 4] /\
    written (ctx m') = [output] /\
    length output = 10%nat /\
    length output <> 4%nat.
Proof.
  eexists. eexists. split; [vm_compute; reflexivity|].
  cbn. repeat split. cbn. lia.
Qed.



Section FileSystemObject.
Context {W SB DB FB : Type}.
Context {storage : StorageBackend.t W SB}
        {filesystem : FileSystemBackend.t W FB SB DB}
        {host : Host.t W}.
Implicit Types (m : Machine W SB DB FB).

(** C6.  OpenFile calls the backend once, with the path cut at its
    first zero byte and the mode popped from the request.  When the
    backend fails, the reply is the backend's code as it is and
    carries no object.  When it succeeds, the reply is success and
    carries one IFile that owns the storage the backend returned; the
    object is built from the result of the call, so only after it. *)
Theorem IFileSystem_OpenFile_reply (backend : FB) m result w' :
  FileSystemBackend.OpenFile backend (until_zero (read_buffer (ctx m)))
    (u32_at (ctx m) 0) (world m) = (result, w') ->
  exists m',
    IFileSystem_OpenFile backend m = Returned tt m' /\
    world m' = w' /\
    calls m' = calls m ++
      [FileSystem_OpenFile backend (until_zero (read_buffer (ctx m))) (u32_at (ctx m) 0)] /\
    written (ctx m') = written (ctx m) /\
    reply (ctx m') =
      match result with
      | ResultError code => replied 2 0 [Param_code code] []
      | MakeResult file => replied 2 1 [Param_code RESULT_SUCCESS] [IFile file]
      end.
Proof.
  unfold u32_at, IFileSystem_OpenFile. run_handler.
  intros HR. rewrite HR.
  destruct result as [file | code]; cbn; eexists; repeat split.
Qed.

(** C9.  Flush and SetSize of a file call the backend once and answer
    success whatever the backend returned: the reply does not depend
    on the result of the call. *)
Theorem IFile_Flush_SetSize_always_succeed (backend : SB) m :
  (exists m',
     IFile_Flush backend m = Returned tt m' /\
     world m' = snd (StorageBackend.Flush backend (world m)) /\
     calls m' = calls m ++ [Storage_Flush backend] /\
     reply (ctx m') = replied 2 0 [Param_code RESULT_SUCCESS] []) /\
  (exists m',
     IFile_SetSize backend m = Returned tt m' /\
     world m' = snd (StorageBackend.SetSize backend (u64_at (ctx m) 0) (world m)) /\
     calls m' = calls m ++ [Storage_SetSize backend (u64_at (ctx m) 0)] /\
     reply (ctx m') = replied 2 0 [Param_code RESULT_SUCCESS] []).
Proof.
  split.
  - unfold IFile_Flush. run_handler.
    destruct (StorageBackend.Flush backend (world m)) as [ok w'].
    eexists. repeat split.
  - unfold IFile_SetSize, u64_at. run_handler.
    destruct (StorageBackend.SetSize backend _ (world m)) as [ok w'].
    eexists. repeat split.
Qed.

(** C10.  CreateFile pops the 64-bit mode and then the 32-bit size,
    and calls the backend with the path cut at its first zero byte and
    the size only.  Two requests on the same machine state that differ
    only in the two mode words make the same backend call, leave the
    same world and log, and get the same reply. *)
Theorem IFileSystem_CreateFile_ignores_mode (backend : FB) m1 m2 :
  world m1 = world m2 ->
  calls m1 = calls m2 ->
  differ_before 2 (ctx m1) (ctx m2) ->
  exists m1' m2',
    IFileSystem_CreateFile backend m1 = Returned tt m1' /\
    IFileSystem_CreateFile backend m2 = Returned tt m2' /\
    calls m1' = calls m1 ++
      [FileSystem_CreateFile backend (until_zero (read_buffer (ctx m1))) (u32_at (ctx m1) 2)] /\
    calls m2' = calls m1' /\
    world m2' = world m1' /\
    reply (ctx m1') =
      replied 2 0
        [Param_code (fst (FileSystemBackend.CreateFile backend
                            (until_zero (read_buffer (ctx m1)))
                            (u32_at (ctx m1) 2) (world m1)))] [] /\
    reply (ctx m2') = reply (ctx m1') /\
    written (ctx m2') = written (ctx m1').
Proof.
  intros Hw Hc (Hargs & Hin & _ & Hout & _).
  unfold IFileSystem_CreateFile, u32_at. run_handler.
  rewrite <- Hw, <- Hc, <- Hin, <- Hout, <- (Hargs 2%nat) by lia.
  destruct (FileSystemBackend.CreateFile backend _ _ (world m1)) as [code w'].
  eexists. eexists. repeat split.
Qed.

End FileSystemObject.

(** One such run: the in-memory backend reports a failed flush, and
    the reply is success. *)
Example IFile_Flush_backend_error :
  fst (StorageBackend.Flush Runs.four_bytes (world (Runs.plain 0%nat))) = false /\
  exists m',
    IFile_Flush Runs.four_bytes (Runs.plain 0%nat) = Returned tt m' /\
    status (ctx m') = Some RESULT_SUCCESS.
Proof. split; [reflexivity|]. eexists. split; reflexivity. Qed.

Lemma IFileSystem_OpenFile_reply_witness :
  (exists m',
     IFileSystem_OpenFile MemoryBackend.archive Runs.open_present = Returned tt m' /\
     reply (ctx m') =
       replied 2 1 [Param_code RESULT_SUCCESS] [IFile [x01; x02; x03; x04]]) /\
  (exists m',
     IFileSystem_OpenFile MemoryBackend.archive Runs.open_missing = Returned tt m' /\
     reply (ctx m') = replied 2 0 [Param_code MemoryBackend.not_found] []).
Proof.
  split.
  - destruct (IFileSystem_OpenFile_reply MemoryBackend.archive Runs.open_present
                (MakeResult [x01; x02; x03; x04]) 0%nat)
      as (m' & Hrun & _ & _ & _ & Hr); [reflexivity|].
    exists m'. split; [exact Hrun | exact Hr].
  - destruct (IFileSystem_OpenFile_reply MemoryBackend.archive Runs.open_missing
                (ResultError MemoryBackend.not_found) 0%nat)
      as (m' & Hrun & _ & _ & _ & Hr); [reflexivity|].
    exists m'. split; [exact Hrun | exact Hr].
Defined.

Lemma IFileSystem_CreateFile_ignores_mode_witness :
  (u64_at (ctx Runs.create_mode_1) 0 = 1 /\ u64_at (ctx Runs.create_mode_7) 0 = 7) /\
  exists m1' m2',
    IFileSystem_CreateFile MemoryBackend.archive Runs.create_mode_1 = Returned tt m1' /\
    IFileSystem_CreateFile MemoryBackend.archive Runs.create_mode_7 = Returned tt m2' /\
    calls m1' = [FileSystem_CreateFile MemoryBackend.archive [x61] 100] /\
    calls m2' = calls m1' /\
    reply (ctx m2') = reply (ctx m1').
Proof.
  split; [split; reflexivity|].
  destruct (IFileSystem_CreateFile_ignores_mode MemoryBackend.archive
              Runs.create_mode_1 Runs.create_mode_7)
    as (m1' & m2' & H1 & H2 & Hc1 & Hc2 & _ & _ & Hr & _).
  - reflexivity.
  - reflexivity.
  - repeat split. intros i Hi.
    do 2 (destruct i as [|i]; [lia|]). reflexivity.
  - exists m1', m2'. repeat split; assumption.
Defined.

Section TopLevel.
Context {W SB DB FB : Type}.
Context {filesystem : FileSystemBackend.t W FB SB DB}
        {mounts : Mounts.t W FB}.
Implicit Types (m : Machine W SB DB FB) (self : FSP_SRV FB).

(** C8.  CreateSaveData pops its two 0x40-byte descriptors and the
    128-bit user id, whatever they hold, and answers success.  The
    world and the log of backend calls are as they were and nothing
    was written to the output buffer. *)
Theorem FSP_SRV_CreateSaveData_no_backend m :
  exists m',
    FSP_SRV_CreateSaveData m = Returned tt m' /\
    reply (ctx m') = replied 2 0 [Param_code RESULT_SUCCESS] [] /\
    untouched m m'.
Proof.
  unfold FSP_SRV_CreateSaveData, untouched.
  cbv [bind NewRequestParser].
  destruct (PopRaw 16 _) as [save_struct rp1].
  destruct (PopRaw 16 rp1) as [save_create_struct rp2].
  destruct (PopRaw 4 rp2) as [uid rp3].
  run_handler. eexists. repeat split.
Qed.

(** A request served from a loaded cache: one call, to the cached
    filesystem. *)
Lemma handler_loaded c self m fs :
  romfs self = Some fs ->
  exists m',
    handler c self m = Returned self m' /\
    calls m' = calls m ++ [open_archive fs].
Proof.
  intros Hfs.
  assert (H : FSP_SRV_OpenDataStorageByCurrentProcess self m = handler c self m)
    by (destruct c; reflexivity).
  rewrite <- H. unfold FSP_SRV_OpenDataStorageByCurrentProcess, FSP_SRV_TryLoadRomFS.
  rewrite Hfs. run_handler. rewrite Hfs.
  destruct (FileSystemBackend.OpenFile fs [] 0 (world m)) as [[s | code] w'];
    cbn; eexists; split; reflexivity.
Qed.

(** A request that finds the cache empty opens the archive, once. *)
Lemma handler_unloaded c self m :
  romfs self = None ->
  exists m',
    match Mounts.OpenFileSystem RomFS Path_default (world m) with
    | (MakeResult fs, _) =>
        handler c self m = Returned {| romfs := Some fs |} m' /\
        calls m' = calls m ++ [successful_open; open_archive fs]
    | (ResultError _, w') =>
        handler c self m = Returned self m' /\
        calls m' = calls m ++ [failed_open] /\
        world m' = w' /\
        reply (ctx m') = replied 2 0 [Param_code (ResultCode_raw (u32 (-1)))] []
    end.
Proof.
  intros Hfs.
  assert (H : FSP_SRV_OpenDataStorageByCurrentProcess self m = handler c self m)
    by (destruct c; reflexivity).
  rewrite <- H. unfold FSP_SRV_OpenDataStorageByCurrentProcess, FSP_SRV_TryLoadRomFS.
  rewrite Hfs. run_handler.
  destruct (Mounts.OpenFileSystem RomFS Path_default (world m)) as [[fs | code] w'];
    cbn.
  - destruct (FileSystemBackend.OpenFile fs [] 0 w') as [[s | code] w''];
      cbn; eexists; (split; [reflexivity|]);
      unfold successful_open, open_archive; now rewrite <- app_assoc.
  - rewrite Hfs. eexists. repeat split.
Qed.

Lemma romfs_opens_app (log log' : list (Call SB DB FB)) :
  romfs_opens (log ++ log') = romfs_opens log ++ romfs_opens log'.
Proof. apply filter_app. Qed.

Lemma romfs_opens_open_archive (fs : FB) (n : nat) :
  romfs_opens (repeat (open_archive (SB := SB) (DB := DB) fs) n) = [].
Proof. induction n; simpl; auto. Qed.

(** C1.  A run of OpenDataStorageByCurrentProcess and OpenRomStorage
    requests on one instance always completes.  If the cache is loaded
    when the run starts, it holds the same filesystem when the run
    ends and every request made one call, OpenFile on that filesystem:
    the archive is not opened again.  If the cache is empty when the
    run starts, the opens of the archive that the run adds to the log
    are some failed ones followed by at most one successful one, which
    is there exactly when the cache ends up loaded; while the cache is
    still empty every request has retried the open, so a run that ends
    with an empty cache has made one failed open per request. *)
Theorem romfs_cache_opened_once requests self (w : W) log :
  exists r,
    serve requests self w log = Some r /\
    match romfs self with
    | Some fs =>
        romfs (instance r) = Some fs /\
        final_calls r = log ++ repeat (open_archive fs) (length requests)
    | None =>
        exists k,
          romfs_opens (final_calls r) =
            romfs_opens log ++ repeat failed_open k ++
            match romfs (instance r) with
            | Some _ => [successful_open]
            | None => []
            end /\
          match romfs (instance r) with
          | Some _ => (k < length requests)%nat
          | None => k = length requests
          end
    end.
Proof.
  revert self w log.
  induction requests as [|[c request] rest IH]; intros self w log.
  - eexists. split; [reflexivity|]. cbn.
    destruct (romfs self) as [fs|] eqn:Hfs.
    + split; [reflexivity|]. now rewrite app_nil_r.
    + exists 0%nat. cbn. now rewrite app_nil_r.
  - cbn [serve].
    set (m := {| world := w; calls := log; ctx := request |}).
    destruct (romfs self) as [fs|] eqn:Hfs.
    + destruct (handler_loaded c self m fs Hfs) as (m' & Hrun & Hcalls).
      rewrite Hrun.
      destruct (IH self (world m') (calls m')) as (r & Hr & Hinv).
      rewrite Hr, Hfs in *. eexists. split; [reflexivity|]. cbn.
      destruct Hinv as [Hsame Hlog]. split; [exact Hsame|].
      rewrite Hlog, Hcalls. cbn. now rewrite <- app_assoc.
    + destruct (handler_unloaded c self m Hfs) as (m' & Hstep).
      destruct (Mounts.OpenFileSystem RomFS Path_default (world m))
        as [[fs | code] w'].
      * destruct Hstep as [Hrun Hcalls]. rewrite Hrun.
        destruct (IH {| romfs := Some fs |} (world m') (calls m')) as (r & Hr & Hinv).
        rewrite Hr. eexists. split; [reflexivity|].
        cbn [romfs] in Hinv. cbn [instance final_calls].
        destruct Hinv as [Hloaded Hlog].
        exists 0%nat. rewrite Hloaded, Hlog, Hcalls.
        split; [|cbn [length]; lia].
        rewrite !romfs_opens_app, romfs_opens_open_archive. cbn.
        now rewrite app_nil_r.
      * destruct Hstep as (Hrun & Hcalls & _). rewrite Hrun.
        destruct (IH self (world m') (calls m')) as (r & Hr & Hinv).
        rewrite Hr, Hfs in *. eexists. split; [reflexivity|].
        cbn [instance final_calls].
        destruct Hinv as (k & Hopens & Hk).
        exists (S k). rewrite Hopens, Hcalls, romfs_opens_app. cbn.
        split; [now rewrite <- app_assoc|].
        destruct (romfs (instance r)); cbn [length]; lia.
Qed.

(** MountSdCard and MountSaveData unwrap the result of the open
    without a look at it: a failed open stops the handler before any
    reply is built. *)
Lemma FSP_SRV_Mount_unchecked m type code w' :
  Mounts.OpenFileSystem type Path_default (world m) = (ResultError code, w') ->
  let stopped :=
    AssertionFailed
      {| world := w';
         calls := calls m ++ [Mounts_OpenFileSystem type Path_default false];
         ctx := ctx m |} in
  (type = SDMC -> FSP_SRV_MountSdCard m = stopped) /\
  (type = SaveData -> FSP_SRV_MountSaveData m = stopped).
Proof.
  intros HR stopped.
  split; intros ->; unfold FSP_SRV_MountSdCard, FSP_SRV_MountSaveData;
    run_handler; rewrite HR; reflexivity.
Qed.

Lemma FSP_SRV_Mount_succeeded m type fs w' :
  Mounts.OpenFileSystem type Path_default (world m) = (MakeResult fs, w') ->
  (type = SDMC -> answers FSP_SRV_MountSdCard m) /\
  (type = SaveData -> answers FSP_SRV_MountSaveData m).
Proof.
  intros HR.
  split; intros ->; unfold answers, FSP_SRV_MountSdCard, FSP_SRV_MountSaveData, status;
    run_handler; rewrite HR; cbn; eexists; eexists; split; reflexivity.
Qed.

End TopLevel.

(** Every other handler of the four service objects and of FSP_SRV
    returns with a status code pushed, on every path; the two handlers
    that allocate an output vector do so when the host can allocate
    it. *)

Ltac split_cases :=
  repeat match goal with
    | |- context [match ?x with _ => _ end] =>
        lazymatch x with
        | context [match _ with _ => _ end] => fail
        | _ => destruct x; cbn
        end
    end.

Ltac answered :=
  unfold answers, status; run_handler; cbv [Failed Succeeded negb];
  split_cases; cbn;
  eexists; eexists; split; reflexivity.

Section Answers.
Context {W SB DB FB Entry : Type}.
Context {storage : StorageBackend.t W SB}
        {directory : DirectoryBackend.t W DB Entry}
        {filesystem : FileSystemBackend.t W FB SB DB}
        {mounts : Mounts.t W FB}
        {layout : EntryLayout.t Entry}
        {host : Host.t W}.
Implicit Types (m : Machine W SB DB FB).

Lemma read_handlers_answer (backend : SB) m :
  (Host.allocates (s64_at (ctx m) 2) (world m) = true ->
   answers (IStorage_Read backend) m) /\
  (Host.allocates (s64_at (ctx m) 4) (world m) = true ->
   answers (IFile_Read backend) m).
Proof.
  split; unfold answers, status, s64_at, IStorage_Read, IFile_Read;
    run_handler; cbv [Failed Succeeded negb]; intros Ha;
    match type of Ha with Host.allocates ?l _ = _ =>
      set (len := l) in *; clearbody len end;
    (destruct (len <? 0); [cbn; eexists; eexists; split; reflexivity|]);
    (destruct (s64 _ <? 0); [cbn; eexists; eexists; split; reflexivity|]);
    cbn; rewrite Ha; split_cases; cbn; eexists; eexists; split; reflexivity.
Qed.

Lemma storage_and_file_handlers_answer (backend : SB) m :
  answers (IFile_Write backend) m /\
  answers (IFile_Flush backend) m /\
  answers (IFile_SetSize backend) m /\
  answers (IFile_GetSize backend) m.
Proof.
  repeat split.
  - unfold IFile_Write. answered.
  - unfold IFile_Flush. answered.
  - unfold IFile_SetSize. answered.
  - unfold IFile_GetSize. answered.
Qed.

Lemma directory_handlers_answer (backend : DB) m :
  answers (IDirectory_Read backend) m /\
  answers (IDirectory_GetEntryCount backend) m.
Proof.
  split.
  - unfold IDirectory_Read. answered.
  - unfold IDirectory_GetEntryCount. answered.
Qed.

Lemma filesystem_handlers_answer (backend : FB) m :
  answers (IFileSystem_CreateFile backend) m /\
  answers (IFileSystem_DeleteFile backend) m /\
  answers (IFileSystem_CreateDirectory backend) m /\
  answers (IFileSystem_OpenFile backend) m /\
  answers (IFileSystem_OpenDirectory backend) m /\
  answers (IFileSystem_GetEntryType backend) m /\
  answers (IFileSystem_Commit backend) m.
Proof.
  repeat split.
  - unfold IFileSystem_CreateFile. answered.
  - unfold IFileSystem_DeleteFile. answered.
  - unfold IFileSystem_CreateDirectory. answered.
  - unfold IFileSystem_OpenFile. answered.
  - unfold IFileSystem_OpenDirectory. answered.
  - unfold IFileSystem_GetEntryType. answered.
  - unfold IFileSystem_Commit. answered.
Qed.

Lemma service_handlers_answer m :
  answers FSP_SRV_Initialize m /\
  answers FSP_SRV_GetGlobalAccessLogMode m.
Proof.
  split.
  - unfold FSP_SRV_Initialize. answered.
  - unfold FSP_SRV_GetGlobalAccessLogMode. answered.
Qed.

End Answers.

(** One run of the cache: two failed opens, then the open that loads
    it, then a request served from it. *)
Example romfs_cache_run :
  option_map (fun r => (romfs (instance r), final_calls r))
    (serve Runs.four_opens {| romfs := None |} 2%nat [])
  = Some (Some MemoryBackend.archive,
          [failed_open; failed_open; successful_open;
           open_archive MemoryBackend.archive;
           open_archive MemoryBackend.archive]).
Proof. reflexivity. Qed.

(** C7, which the code breaks.  Against a backend whose open of the SD
    card and of the save data fails, MountSdCard and MountSaveData stop
    at the assertion of Unwrap: the handler does not return, and the
    context holds no reply and so no status code. *)
Theorem FSP_SRV_Mount_failed_open_unanswered :
  Mounts.OpenFileSystem SDMC Path_default (world (Runs.plain 0%nat))
    = (ResultError (ResultCode_raw (u32 (-1))), 0%nat) /\
  Mounts.OpenFileSystem SaveData Path_default (world (Runs.plain 0%nat))
    = (ResultError (ResultCode_raw (u32 (-1))), 0%nat) /\
  (exists m', FSP_SRV_MountSdCard (Runs.plain 0%nat) = AssertionFailed m' /\
              reply (ctx m') = None /\ status (ctx m') = None) /\
  (exists m', FSP_SRV_MountSaveData (Runs.plain 0%nat) = AssertionFailed m' /\
              reply (ctx m') = None /\ status (ctx m') = None).
Proof.
  split; [reflexivity|]. split; [reflexivity|]. split.
  - eexists. split.
    + apply (FSP_SRV_Mount_unchecked (Runs.plain 0%nat) SDMC
               (ResultCode_raw (u32 (-1))) 0%nat); reflexivity.
    + split; reflexivity.
  - eexists. split.
    + apply (FSP_SRV_Mount_unchecked (Runs.plain 0%nat) SaveData
               (ResultCode_raw (u32 (-1))) 0%nat); reflexivity.
    + split; reflexivity.
Qed.

(** * Further properties of the handlers *)

(** ** Path decoding *)

Lemma until_zero_no_zero (buffer : list byte) : ~ In x00 (until_zero buffer).
Proof.
  induction buffer as [|b rest IH]; simpl; [tauto|].
  destruct (Byte.eqb b x00) eqn:E; simpl; [tauto|].
  intros [H | H]; [|tauto].
  subst b. discriminate E.
Qed.

Lemma until_zero_app (name rest : list byte) :
  ~ In x00 name -> until_zero (name ++ rest) = name ++ until_zero rest.
Proof.
  induction name as [|b name IH]; simpl; intros H; [reflexivity|].
  destruct (Byte.eqb b x00) eqn:E.
  - apply Byte.byte_dec_bl in E. subst b. tauto.
  - f_equal. apply IH. tauto.
Qed.

(** X1.  The path a handler reads is the part of the input buffer before
    its first zero byte: it holds no zero byte, the buffer is the path
    followed by nothing or by a zero byte and whatever comes after;
    so a buffer without a zero byte is the path as a whole, and
    whatever follows the first terminator is dropped. *)
Theorem until_zero_first_terminator :
  (forall buffer,
     ~ In x00 (until_zero buffer) /\
     (buffer = until_zero buffer \/
      exists junk, buffer = until_zero buffer ++ x00 :: junk)) /\
  (forall name, ~ In x00 name -> until_zero name = name) /\
  (forall name junk, ~ In x00 name -> until_zero (name ++ x00 :: junk) = name).
Proof.
  split; [|split].
  - intros buffer. split; [apply until_zero_no_zero|].
    induction buffer as [|b rest IH]; simpl; [now left|].
    destruct (Byte.eqb b x00) eqn:E.
    + apply Byte.byte_dec_bl in E. subst b. right. now exists rest.
    + destruct IH as [IH | [junk IH]].
      * left. now rewrite <- IH.
      * right. exists junk. simpl. now rewrite <- IH.
  - intros name H. rewrite <- (app_nil_r name) at 1.
    rewrite until_zero_app by assumption. simpl. apply app_nil_r.
  - intros name junk H. rewrite until_zero_app by assumption.
    simpl. apply app_nil_r.
Qed.

Lemma until_zero_first_terminator_witness :
  ~ In x00 [x61; x62] /\
  until_zero [x61; x62] = [x61; x62] /\
  until_zero ([x61; x62] ++ x00 :: [x63; x00; x64]) = [x61; x62].
Proof.
  assert (H : ~ In x00 [x61; x62]) by (simpl; intuition discriminate).
  split; [exact H|]. split.
  - apply (proj1 (proj2 until_zero_first_terminator)). exact H.
  - apply (proj2 (proj2 until_zero_first_terminator)). exact H.
Defined.

(** ** Storage, file and directory objects *)

Section Objects.
Context {W SB DB FB Entry : Type}.
Context {storage : StorageBackend.t W SB}
        {directory : DirectoryBackend.t W DB Entry}
        {layout : EntryLayout.t Entry}
        {host : Host.t W}.
Implicit Types (m : Machine W SB DB FB).

Lemma IStorage_Read_failed (backend : SB) m code data w' :
  0 <= s64_at (ctx m) 0 ->
  0 <= s64_at (ctx m) 2 ->
  Host.allocates (s64_at (ctx m) 2) (world m) = true ->
  StorageBackend.Read backend (s64_at (ctx m) 0) (s64_at (ctx m) 2) (world m)
    = ((ResultError code, data), w') ->
  Z.of_nat (length data) <= s64_at (ctx m) 2 ->
  exists m',
    IStorage_Read backend m = Returned tt m' /\
    reply (ctx m') = replied 2 0 [Param_code code] [] /\
    written (ctx m') = written (ctx m) /\
    world m' = w' /\
    calls m' = calls m ++ [Storage_Read backend (s64_at (ctx m) 0) (s64_at (ctx m) 2)].
Proof.
  unfold s64_at, IStorage_Read. run_handler.
  intros Ho Hl Ha HR _. name_arguments Ho Hl.
  apply Z.ltb_ge in Ho. apply Z.ltb_ge in Hl.
  rewrite Hl, Ho, Ha, HR. cbn. eexists. repeat split.
Qed.

Lemma IFile_Read_failed (backend : SB) m code data w' :
  0 <= s64_at (ctx m) 2 ->
  0 <= s64_at (ctx m) 4 ->
  Host.allocates (s64_at (ctx m) 4) (world m) = true ->
  StorageBackend.Read backend (s64_at (ctx m) 2) (s64_at (ctx m) 4) (world m)
    = ((ResultError code, data), w') ->
  Z.of_nat (length data) <= s64_at (ctx m) 4 ->
  exists m',
    IFile_Read backend m = Returned tt m' /\
    reply (ctx m') = replied 2 0 [Param_code code] [] /\
    written (ctx m') = written (ctx m) /\
    world m' = w' /\
    calls m' = calls m ++ [Storage_Read backend (s64_at (ctx m) 2) (s64_at (ctx m) 4)].
Proof.
  unfold s64_at, IFile_Read. run_handler.
  intros Ho Hl Ha HR _. name_arguments Ho Hl.
  apply Z.ltb_ge in Ho. apply Z.ltb_ge in Hl.
  rewrite Hl, Ho, Ha, HR. cbn. eexists. repeat split.
Qed.

(** X2.  A Storage Read or File Read whose arguments pass the
    validation, whose [length] bytes the host can allocate, and whose
    backend read fails, having stored no more than [length] bytes,
    answers with the backend's code and nothing else, in a reply of
    two words: no count is pushed, and nothing goes to the caller's
    output buffer, whatever the backend had stored in the vector
    before it failed. *)
Theorem Read_passes_backend_failure (backend : SB) m code data w' :
  (0 <= s64_at (ctx m) 0 ->
   0 <= s64_at (ctx m) 2 ->
   Host.allocates (s64_at (ctx m) 2) (world m) = true ->
   StorageBackend.Read backend (s64_at (ctx m) 0) (s64_at (ctx m) 2) (world m)
     = ((ResultError code, data), w') ->
   Z.of_nat (length data) <= s64_at (ctx m) 2 ->
   exists m',
     IStorage_Read backend m = Returned tt m' /\
     reply (ctx m') = replied 2 0 [Param_code code] [] /\
     written (ctx m') = written (ctx m) /\
     world m' = w' /\
     calls m' = calls m ++ [Storage_Read backend (s64_at (ctx m) 0) (s64_at (ctx m) 2)]) /\
  (0 <= s64_at (ctx m) 2 ->
   0 <= s64_at (ctx m) 4 ->
   Host.allocates (s64_at (ctx m) 4) (world m) = true ->
   StorageBackend.Read backend (s64_at (ctx m) 2) (s64_at (ctx m) 4) (world m)
     = ((ResultError code, data), w') ->
   Z.of_nat (length data) <= s64_at (ctx m) 4 ->
   exists m',
     IFile_Read backend m = Returned tt m' /\
     reply (ctx m') = replied 2 0 [Param_code code] [] /\
     written (ctx m') = written (ctx m) /\
     world m' = w' /\
     calls m' = calls m ++ [Storage_Read backend (s64_at (ctx m) 2) (s64_at (ctx m) 4)]).
Proof.
  split; [apply IStorage_Read_failed | apply IFile_Read_failed].
Qed.

(** X16.  A Storage Read or File Read whose arguments pass the
    validation and whose [length] bytes the host cannot allocate is
    left by the exception of the vector's constructor: the handler
    does not return, the backend is not called, and the world, the
    log, the output and the reply are as they were. *)
Theorem Read_allocation_failure (backend : SB) m :
  (0 <= s64_at (ctx m) 0 ->
   0 <= s64_at (ctx m) 2 ->
   Host.allocates (s64_at (ctx m) 2) (world m) = false ->
   IStorage_Read backend m = Thrown m) /\
  (0 <= s64_at (ctx m) 2 ->
   0 <= s64_at (ctx m) 4 ->
   Host.allocates (s64_at (ctx m) 4) (world m) = false ->
   IFile_Read backend m = Thrown m).
Proof.
  split; unfold s64_at, IStorage_Read, IFile_Read; run_handler;
    intros Ho Hl Ha; name_arguments Ho Hl;
    apply Z.ltb_ge in Ho; apply Z.ltb_ge in Hl;
    rewrite Hl, Ho, Ha; reflexivity.
Qed.

(** X3.  A File Write whose arguments pass the validation makes one
    backend call: Write with the offset and the length of the request,
    the flush flag set, and the whole input buffer as data, whether
    the buffer holds [length] bytes or not.  The reply is one status
    in two words, the backend's code when it failed and success when
    it did not; the count the backend reported is not passed on, and
    nothing goes to the output buffer. *)
Theorem IFile_Write_forwards (backend : SB) m res w' :
  0 <= s64_at (ctx m) 2 ->
  0 <= s64_at (ctx m) 4 ->
  StorageBackend.Write backend (s64_at (ctx m) 2) (s64_at (ctx m) 4) true
    (read_buffer (ctx m)) (world m) = (res, w') ->
  exists m',
    IFile_Write backend m = Returned tt m' /\
    calls m' = calls m ++
      [Storage_Write backend (s64_at (ctx m) 2) (s64_at (ctx m) 4) true
         (read_buffer (ctx m))] /\
    world m' = w' /\
    reply (ctx m') = replied 2 0 [Param_code (Code res)] [] /\
    written (ctx m') = written (ctx m).
Proof.
  unfold s64_at, IFile_Write. run_handler.
  intros Ho Hl HR. name_arguments Ho Hl.
  apply Z.ltb_ge in Ho. apply Z.ltb_ge in Hl.
  rewrite Hl, Ho, HR.
  destruct res as [count | code]; cbn; eexists; repeat split.
Qed.

(** X4.  GetSize of a file and GetEntryCount of a directory make one
    backend call and answer success followed by the 64-bit value the
    backend gave.  The answer is the same for every request: neither
    the arguments nor the capacity of the output buffer enter it, and
    nothing is written to the output buffer. *)
Theorem GetSize_GetEntryCount_report_backend (file : SB) (dir : DB) m :
  (exists m',
     IFile_GetSize file m = Returned tt m' /\
     calls m' = calls m ++ [Storage_GetSize file] /\
     world m' = snd (StorageBackend.GetSize file (world m)) /\
     reply (ctx m') =
       replied 4 0 [Param_code RESULT_SUCCESS;
                    Param_u64 (u64 (fst (StorageBackend.GetSize file (world m))))] [] /\
     written (ctx m') = written (ctx m)) /\
  (exists m',
     IDirectory_GetEntryCount dir m = Returned tt m' /\
     calls m' = calls m ++ [Directory_GetEntryCount dir] /\
     world m' = snd (DirectoryBackend.GetEntryCount dir (world m)) /\
     reply (ctx m') =
       replied 4 0 [Param_code RESULT_SUCCESS;
                    Param_u64 (fst (DirectoryBackend.GetEntryCount dir (world m)))] [] /\
     written (ctx m') = written (ctx m)).
Proof.
  split.
  - unfold IFile_GetSize. run_handler.
    destruct (StorageBackend.GetSize file (world m)) as [size w'].
    eexists. repeat split.
  - unfold IDirectory_GetEntryCount. run_handler.
    destruct (DirectoryBackend.GetEntryCount dir (world m)) as [count w'].
    eexists. repeat split.
Qed.

(** X5.  A Directory Read into an output buffer smaller than one entry
    record asks the backend for zero entries; with a backend that
    stores no entry when asked for none, it writes an empty payload,
    and the reply is still success, followed by the count the backend
    reported. *)
Theorem IDirectory_Read_small_buffer (backend : DB) m read_entries w' :
  0 < EntryLayout.sizeof ->
  0 <= write_buffer_size (ctx m) < EntryLayout.sizeof ->
  DirectoryBackend.Read backend 0 (world m) = ((read_entries, []), w') ->
  exists m',
    IDirectory_Read backend m = Returned tt m' /\
    calls m' = calls m ++ [Directory_Read backend 0] /\
    world m' = w' /\
    written (ctx m') = written (ctx m) ++ [[]] /\
    reply (ctx m') =
      replied 4 0 [Param_code RESULT_SUCCESS; Param_u64 read_entries] [].
Proof.
  intros Hpos Hsize HR.
  unfold IDirectory_Read. run_handler.
  rewrite (Z.div_small _ _ Hsize), HR.
  cbn. eexists. repeat split.
Qed.

End Objects.

Lemma Read_passes_backend_failure_witness :
  (exists m',
     IStorage_Read SecondBackend.io_error SecondBackend.storage_read_four
       = Returned tt m' /\
     status (ctx m') = Some SecondBackend.io_error /\ written (ctx m') = []) /\
  (exists m',
     IFile_Read SecondBackend.io_error SecondBackend.file_read_four
       = Returned tt m' /\
     status (ctx m') = Some SecondBackend.io_error /\ written (ctx m') = []).
Proof.
  split.
  - destruct (proj1 (Read_passes_backend_failure SecondBackend.io_error
                       SecondBackend.storage_read_four SecondBackend.io_error [xff] tt))
      as (m' & Hrun & Hr & Hw & _);
      [vm_compute; congruence | vm_compute; congruence | reflexivity
       | reflexivity | vm_compute; congruence |].
    exists m'. split; [exact Hrun|]. split.
    + unfold status. rewrite Hr. reflexivity.
    + rewrite Hw. reflexivity.
  - destruct (proj2 (Read_passes_backend_failure SecondBackend.io_error
                       SecondBackend.file_read_four SecondBackend.io_error [xff] tt))
      as (m' & Hrun & Hr & Hw & _);
      [vm_compute; congruence | vm_compute; congruence | reflexivity
       | reflexivity | vm_compute; congruence |].
    exists m'. split; [exact Hrun|]. split.
    + unfold status. rewrite Hr. reflexivity.
    + rewrite Hw. reflexivity.
Defined.

Lemma Read_allocation_failure_witness :
  (s64_at (ctx MoreRuns.storage_read_huge) 2 = 2 ^ 63 - 1 /\
   Host.allocates (2 ^ 63 - 1) (world MoreRuns.storage_read_huge) = false /\
   IStorage_Read Runs.four_bytes MoreRuns.storage_read_huge
     = Thrown MoreRuns.storage_read_huge) /\
  (s64_at (ctx MoreRuns.file_read_huge) 4 = 2 ^ 63 - 1 /\
   IFile_Read Runs.four_bytes MoreRuns.file_read_huge
     = Thrown MoreRuns.file_read_huge).
Proof.
  split.
  - split; [reflexivity|]. split; [reflexivity|].
    apply (proj1 (Read_allocation_failure Runs.four_bytes MoreRuns.storage_read_huge));
      [vm_compute; congruence | vm_compute; congruence | reflexivity].
  - split; [reflexivity|].
    apply (proj2 (Read_allocation_failure Runs.four_bytes MoreRuns.file_read_huge));
      [vm_compute; congruence | vm_compute; congruence | reflexivity].
Defined.

Lemma IFile_Write_forwards_witness :
  (exists m',
     IFile_Write Runs.four_bytes MoreRuns.file_write = Returned tt m' /\
     calls m' = [Storage_Write Runs.four_bytes 3 9 true [x61; x62]] /\
     reply (ctx m') = replied 2 0 [Param_code RESULT_SUCCESS] []) /\
  (exists m',
     IFile_Write SecondBackend.io_error SecondBackend.file_write = Returned tt m' /\
     reply (ctx m') = replied 2 0 [Param_code SecondBackend.io_error] []).
Proof.
  split.
  - destruct (IFile_Write_forwards (DB := MemoryBackend.Directory)
                (FB := MemoryBackend.FileSystem)
                Runs.four_bytes MoreRuns.file_write (MakeResult 9) 0%nat)
      as (m' & Hrun & Hc & _ & Hr & _);
      [vm_compute; congruence | vm_compute; congruence | reflexivity |].
    exists m'. split; [exact Hrun|]. split; [exact Hc | exact Hr].
  - destruct (IFile_Write_forwards SecondBackend.io_error SecondBackend.file_write
                (ResultError SecondBackend.io_error) tt)
      as (m' & Hrun & _ & _ & Hr & _);
      [vm_compute; congruence | vm_compute; congruence | reflexivity |].
    exists m'. split; [exact Hrun | exact Hr].
Defined.

Lemma IDirectory_Read_small_buffer_witness :
  (0 < EntryLayout.sizeof (t := MemoryBackend.layout) /\
   0 <= write_buffer_size (ctx MoreRuns.directory_read_small)
     < EntryLayout.sizeof (t := MemoryBackend.layout) /\
   DirectoryBackend.Read Runs.one_entry 0 (world MoreRuns.directory_read_small)
     = ((0, []), 0%nat)) /\
  exists m',
    IDirectory_Read Runs.one_entry MoreRuns.directory_read_small = Returned tt m' /\
    calls m' = [Directory_Read Runs.one_entry 0] /\
    written (ctx m') = [[]] /\
    reply (ctx m') = replied 4 0 [Param_code RESULT_SUCCESS; Param_u64 0] [].
Proof.
  split; [split; [reflexivity | split; [split; vm_compute; congruence | reflexivity]]|].
  destruct (IDirectory_Read_small_buffer (SB := MemoryBackend.Storage)
              (FB := MemoryBackend.FileSystem)
              Runs.one_entry MoreRuns.directory_read_small 0 0%nat)
    as (m' & Hrun & Hc & _ & Hw & Hr);
    [reflexivity | split; vm_compute; congruence | reflexivity |].
  exists m'. repeat split; assumption.
Defined.

(** ** Filesystem objects *)

(** Goes through the entries of a function table that have a handler. *)
Ltac each_entry H :=
  simpl in H;
  repeat (destruct H as [H | H]; [inversion H; subst; clear H|]);
  try contradiction.

Section FileSystemHandlers.
Context {W SB DB FB Entry : Type}.
Context {storage : StorageBackend.t W SB}
        {directory : DirectoryBackend.t W DB Entry}
        {filesystem : FileSystemBackend.t W FB SB DB}
        {mounts : Mounts.t W FB}
        {layout : EntryLayout.t Entry}
        {host : Host.t W}.
Implicit Types (m : Machine W SB DB FB).

(** X6.  Every handler of a filesystem object reads no more of the input
    buffer than the path before its first zero byte: on two requests
    that are equal but for the bytes from the first terminator on,
    from the same world and log, it returns with the same backend
    calls made, the same world, the same reply and the same output. *)
Theorem IFileSystem_handlers_read_terminated_path id h (backend : FB) m1 m2 :
  In (id, h) (FunctionTables.implemented FunctionTables.IFileSystem_functions) ->
  world m1 = world m2 ->
  calls m1 = calls m2 ->
  same_path (ctx m1) (ctx m2) ->
  exists m1' m2',
    h backend m1 = Returned tt m1' /\
    h backend m2 = Returned tt m2' /\
    same_effects m1' m2'.
Proof.
  intros Hin Hw Hc (Hpath & Hargs & _ & Hout & Hrep).
  unfold same_effects.
  each_entry Hin;
    unfold IFileSystem_CreateFile, IFileSystem_DeleteFile,
      IFileSystem_CreateDirectory, IFileSystem_GetEntryType,
      IFileSystem_OpenFile, IFileSystem_OpenDirectory, IFileSystem_Commit;
    run_handler; cbv [Failed Succeeded negb];
    rewrite <- ?Hw, <- ?Hc, <- ?Hpath, <- ?Hargs, <- ?Hout, <- ?Hrep;
    split_cases; cbn; eexists; eexists; repeat split; cbn; congruence.
Qed.

(** X7.  OpenDirectory calls the backend once, with the path alone: the
    filter flags of the request are popped and dropped.  When the
    backend fails the reply is its code and carries no object; when it
    succeeds the reply is success and carries one IDirectory that owns
    the directory the backend returned. *)
Theorem IFileSystem_OpenDirectory_reply (backend : FB) m result w' :
  FileSystemBackend.OpenDirectory backend (until_zero (read_buffer (ctx m))) (world m)
    = (result, w') ->
  exists m',
    IFileSystem_OpenDirectory backend m = Returned tt m' /\
    world m' = w' /\
    calls m' = calls m ++
      [FileSystem_OpenDirectory backend (until_zero (read_buffer (ctx m)))] /\
    written (ctx m') = written (ctx m) /\
    reply (ctx m') =
      match result with
      | ResultError code => replied 2 0 [Param_code code] []
      | MakeResult dir => replied 2 1 [Param_code RESULT_SUCCESS] [IDirectory dir]
      end.
Proof.
  unfold IFileSystem_OpenDirectory. run_handler.
  intros HR. rewrite HR.
  destruct result as [dir | code]; cbn; eexists; repeat split.
Qed.

(** X8.  GetEntryType calls the backend once with the path.  When the
    backend fails the reply is its code alone, in two words; when it
    succeeds the reply is success followed by the type as a 32-bit
    value, in three words.  No object is attached either way. *)
Theorem IFileSystem_GetEntryType_reply (backend : FB) m result w' :
  FileSystemBackend.GetEntryType backend (until_zero (read_buffer (ctx m))) (world m)
    = (result, w') ->
  exists m',
    IFileSystem_GetEntryType backend m = Returned tt m' /\
    world m' = w' /\
    calls m' = calls m ++
      [FileSystem_GetEntryType backend (until_zero (read_buffer (ctx m)))] /\
    written (ctx m') = written (ctx m) /\
    reply (ctx m') =
      match result with
      | ResultError code => replied 2 0 [Param_code code] []
      | MakeResult type => replied 3 0 [Param_code RESULT_SUCCESS; Param_u32 (u32 type)] []
      end.
Proof.
  unfold IFileSystem_GetEntryType. run_handler.
  intros HR. rewrite HR.
  destruct result as [type | code]; cbn; eexists; repeat split.
Qed.

(** X9.  DeleteFile and CreateDirectory call the backend once with the
    path and answer with the code the backend returned, success or
    not, and nothing else; the argument block is not read. *)
Theorem DeleteFile_CreateDirectory_pass_code (backend : FB) m :
  (exists m',
     IFileSystem_DeleteFile backend m = Returned tt m' /\
     calls m' = calls m ++
       [FileSystem_DeleteFile backend (until_zero (read_buffer (ctx m)))] /\
     world m' = snd (FileSystemBackend.DeleteFile backend
                       (until_zero (read_buffer (ctx m))) (world m)) /\
     reply (ctx m') =
       replied 2 0
         [Param_code (fst (FileSystemBackend.DeleteFile backend
                             (until_zero (read_buffer (ctx m))) (world m)))] [] /\
     written (ctx m') = written (ctx m)) /\
  (exists m',
     IFileSystem_CreateDirectory backend m = Returned tt m' /\
     calls m' = calls m ++
       [FileSystem_CreateDirectory backend (until_zero (read_buffer (ctx m)))] /\
     world m' = snd (FileSystemBackend.CreateDirectory backend
                       (until_zero (read_buffer (ctx m))) (world m)) /\
     reply (ctx m') =
       replied 2 0
         [Param_code (fst (FileSystemBackend.CreateDirectory backend
                             (until_zero (read_buffer (ctx m))) (world m)))] [] /\
     written (ctx m') = written (ctx m)).
Proof.
  split.
  - unfold IFileSystem_DeleteFile. run_handler.
    destruct (FileSystemBackend.DeleteFile backend _ (world m)) as [code w'].
    eexists. repeat split.
  - unfold IFileSystem_CreateDirectory. run_handler.
    destruct (FileSystemBackend.CreateDirectory backend _ (world m)) as [code w'].
    eexists. repeat split.
Qed.

(** X10.  Commit of a filesystem object, Initialize and
    GetGlobalAccessLogMode answer success without a backend call,
    whatever the request holds and whatever the state of the backend:
    the world and the log are as they were and nothing is written.
    The log mode answered is the constant 5. *)
Theorem stubs_succeed_without_backend (backend : FB) m :
  (exists m',
     IFileSystem_Commit backend m = Returned tt m' /\
     reply (ctx m') = replied 2 0 [Param_code RESULT_SUCCESS] [] /\
     untouched m m') /\
  (exists m',
     FSP_SRV_Initialize m = Returned tt m' /\
     reply (ctx m') = replied 2 0 [Param_code RESULT_SUCCESS] [] /\
     untouched m m') /\
  (exists m',
     FSP_SRV_GetGlobalAccessLogMode m = Returned tt m' /\
     reply (ctx m') = replied 3 0 [Param_code RESULT_SUCCESS; Param_u32 5] [] /\
     untouched m m').
Proof.
  unfold untouched, IFileSystem_Commit, FSP_SRV_Initialize, FSP_SRV_GetGlobalAccessLogMode.
  run_handler. repeat split; eexists; repeat split.
Qed.

End FileSystemHandlers.

Lemma IFileSystem_handlers_read_terminated_path_witness :
  same_path (ctx MoreRuns.path_bare) (ctx MoreRuns.path_trailing) /\
  exists m1' m2',
    IFileSystem_CreateFile MemoryBackend.archive MoreRuns.path_bare = Returned tt m1' /\
    IFileSystem_CreateFile MemoryBackend.archive MoreRuns.path_trailing = Returned tt m2' /\
    calls m1' = [FileSystem_CreateFile MemoryBackend.archive [x61] 100] /\
    same_effects m1' m2'.
Proof.
  assert (H : same_path (ctx MoreRuns.path_bare) (ctx MoreRuns.path_trailing))
    by (repeat split).
  split; [exact H|].
  destruct (IFileSystem_handlers_read_terminated_path
              0 IFileSystem_CreateFile MemoryBackend.archive
              MoreRuns.path_bare MoreRuns.path_trailing)
    as (m1' & m2' & H1 & H2 & Hsame);
    [left; reflexivity | reflexivity | reflexivity | exact H |].
  exists m1', m2'. repeat split; try assumption; try apply Hsame.
  vm_compute in H1. injection H1 as <-. reflexivity.
Defined.

Lemma IFileSystem_OpenDirectory_reply_witness :
  exists m',
    IFileSystem_OpenDirectory MemoryBackend.archive MoreRuns.path_bare = Returned tt m' /\
    reply (ctx m') = replied 2 0 [Param_code MemoryBackend.not_found] [].
Proof.
  destruct (IFileSystem_OpenDirectory_reply MemoryBackend.archive MoreRuns.path_bare
              (ResultError MemoryBackend.not_found) 0%nat)
    as (m' & Hrun & _ & _ & _ & Hr); [reflexivity|].
  exists m'. split; [exact Hrun | exact Hr].
Defined.

Lemma IFileSystem_GetEntryType_reply_witness :
  (exists m',
     IFileSystem_GetEntryType MemoryBackend.archive Runs.open_present = Returned tt m' /\
     reply (ctx m') = replied 3 0 [Param_code RESULT_SUCCESS; Param_u32 2] []) /\
  (exists m',
     IFileSystem_GetEntryType MemoryBackend.archive Runs.open_missing = Returned tt m' /\
     reply (ctx m') = replied 2 0 [Param_code MemoryBackend.not_found] []).
Proof.
  split.
  - destruct (IFileSystem_GetEntryType_reply MemoryBackend.archive Runs.open_present
                (MakeResult 2) 0%nat)
      as (m' & Hrun & _ & _ & _ & Hr); [reflexivity|].
    exists m'. split; [exact Hrun | exact Hr].
  - destruct (IFileSystem_GetEntryType_reply MemoryBackend.archive Runs.open_missing
                (ResultError MemoryBackend.not_found) 0%nat)
      as (m' & Hrun & _ & _ & _ & Hr); [reflexivity|].
    exists m'. split; [exact Hrun | exact Hr].
Defined.

(** ** The top-level service *)

Section Service_replies.
Context {W SB DB FB : Type}.
Context {filesystem : FileSystemBackend.t W FB SB DB}
        {mounts : Mounts.t W FB}.
Implicit Types (m : Machine W SB DB FB) (self : FSP_SRV FB).

(** X11.  When the open succeeds, MountSdCard and MountSaveData have made
    one backend call, the open of the SDMC mount for the first and of
    the SaveData mount for the second, with a default path, and answer
    success with one IFileSystem that owns the filesystem opened. *)
Theorem FSP_SRV_Mount_wraps_opened_filesystem m fs w' :
  (Mounts.OpenFileSystem SDMC Path_default (world m) = (MakeResult fs, w') ->
   exists m',
     FSP_SRV_MountSdCard m = Returned tt m' /\
     calls m' = calls m ++ [Mounts_OpenFileSystem SDMC Path_default true] /\
     world m' = w' /\
     reply (ctx m') = replied 2 1 [Param_code RESULT_SUCCESS] [IFileSystem fs] /\
     written (ctx m') = written (ctx m)) /\
  (Mounts.OpenFileSystem SaveData Path_default (world m) = (MakeResult fs, w') ->
   exists m',
     FSP_SRV_MountSaveData m = Returned tt m' /\
     calls m' = calls m ++ [Mounts_OpenFileSystem SaveData Path_default true] /\
     world m' = w' /\
     reply (ctx m') = replied 2 1 [Param_code RESULT_SUCCESS] [IFileSystem fs] /\
     written (ctx m') = written (ctx m)).
Proof.
  split; intros HR; unfold FSP_SRV_MountSdCard, FSP_SRV_MountSaveData;
    run_handler; rewrite HR; cbn; eexists; repeat split.
Qed.

(** X12.  OpenDataStorageByCurrentProcess always returns, and its reply is
    one of three.  With no cached archive and a failed open of the
    RomFS mount it is the code ResultCode(-1) alone.  With an archive,
    cached or just opened, it is what OpenFile of the empty path and
    mode gave on that archive: the backend's code alone when it
    failed, success and one IStorage owning the storage returned when
    it did not.  The cache holds the archive afterwards even when the
    storage could not be opened, and nothing is written to the output
    buffer. *)
Theorem FSP_SRV_OpenDataStorageByCurrentProcess_reply self m :
  exists self' m',
    FSP_SRV_OpenDataStorageByCurrentProcess self m = Returned self' m' /\
    romfs self' = fst (archive_after_load self (world m)) /\
    written (ctx m') = written (ctx m) /\
    reply (ctx m') =
      match archive_after_load self (world m) with
      | (None, _) => replied 2 0 [Param_code (ResultCode_raw (u32 (-1)))] []
      | (Some fs, w') =>
          match fst (FileSystemBackend.OpenFile fs [] 0 w') with
          | ResultError code => replied 2 0 [Param_code code] []
          | MakeResult s => replied 2 1 [Param_code RESULT_SUCCESS] [IStorage s]
          end
      end.
Proof.
  unfold FSP_SRV_OpenDataStorageByCurrentProcess, FSP_SRV_TryLoadRomFS,
    archive_after_load.
  destruct (romfs self) as [fs|] eqn:Hfs.
  - run_handler. rewrite Hfs.
    destruct (FileSystemBackend.OpenFile fs [] 0 (world m)) as [[s | code] w'];
      cbn; eexists; eexists; repeat split; assumption.
  - run_handler.
    destruct (Mounts.OpenFileSystem RomFS Path_default (world m)) as [[fs | code] w'];
      cbn.
    + destruct (FileSystemBackend.OpenFile fs [] 0 w') as [[s | code] w''];
        cbn; eexists; eexists; repeat split.
    + rewrite Hfs. eexists. eexists. repeat split. assumption.
Qed.

End Service_replies.

Lemma FSP_SRV_Mount_wraps_opened_filesystem_witness :
  (exists m',
     FSP_SRV_MountSdCard (SecondBackend.machine (request [] [] 0)) = Returned tt m' /\
     reply (ctx m') =
       replied 2 1 [Param_code RESULT_SUCCESS] [IFileSystem MemoryBackend.archive]) /\
  (exists m',
     FSP_SRV_MountSaveData (SecondBackend.machine (request [] [] 0)) = Returned tt m' /\
     reply (ctx m') =
       replied 2 1 [Param_code RESULT_SUCCESS] [IFileSystem MemoryBackend.archive]).
Proof.
  split.
  - destruct (proj1 (FSP_SRV_Mount_wraps_opened_filesystem
                       (SecondBackend.machine (request [] [] 0))
                       MemoryBackend.archive tt))
      as (m' & Hrun & _ & _ & Hr & _); [reflexivity|].
    exists m'. split; [exact Hrun | exact Hr].
  - destruct (proj2 (FSP_SRV_Mount_wraps_opened_filesystem
                       (SecondBackend.machine (request [] [] 0))
                       MemoryBackend.archive tt))
      as (m' & Hrun & _ & _ & Hr & _); [reflexivity|].
    exists m'. split; [exact Hrun | exact Hr].
Defined.

(** ** All registered handlers *)

Lemma grown_by_refl {A} (n : nat) (l : list A) : grown_by n l l.
Proof. exists []. split; [now rewrite app_nil_r | simpl; lia]. Qed.

Lemma grown_by_snoc {A} (n : nat) (l l' : list A) (a : A) :
  grown_by n l l' -> grown_by (S n) l (l' ++ [a]).
Proof.
  intros (added & -> & Hn). exists (added ++ [a]). split.
  - now rewrite app_assoc.
  - rewrite length_app. simpl. lia.
Qed.

Lemma strictly_increasing_NoDup (l : list Z) :
  FunctionTables.strictly_increasing l = true -> NoDup l.
Proof.
  assert (H : forall l a, FunctionTables.strictly_increasing (a :: l) = true ->
                          (forall b, In b l -> a < b) /\ NoDup (a :: l)).
  { clear l. induction l as [|b l IH]; intros a Hs.
    - split; [intros b []|]. constructor; [intros []|constructor].
    - simpl in Hs. apply andb_prop in Hs as [Hab Hs]. apply Z.ltb_lt in Hab.
      destruct (IH b Hs) as [Hlt Hnd].
      assert (Ha : forall c, In c (b :: l) -> a < c).
      { intros c [<- | Hc]; [exact Hab|]. specialize (Hlt c Hc). lia. }
      split; [exact Ha|]. constructor; [|exact Hnd].
      intros Hin. specialize (Ha a Hin). lia. }
  destruct l as [|a l]; [constructor|]. intros Hs. apply (H l a Hs).
Qed.

Ltac unfold_handlers :=
  unfold FunctionTables.stateless,
    IStorage_Read, IFile_Read, IFile_Write, IFile_Flush, IFile_SetSize,
    IFile_GetSize, IDirectory_Read, IDirectory_GetEntryCount,
    IFileSystem_CreateFile, IFileSystem_DeleteFile,
    IFileSystem_CreateDirectory, IFileSystem_GetEntryType,
    IFileSystem_OpenFile, IFileSystem_OpenDirectory, IFileSystem_Commit,
    FSP_SRV_Initialize, FSP_SRV_MountSdCard, FSP_SRV_CreateSaveData,
    FSP_SRV_MountSaveData, FSP_SRV_GetGlobalAccessLogMode,
    FSP_SRV_OpenRomStorage, FSP_SRV_OpenDataStorageByCurrentProcess,
    FSP_SRV_TryLoadRomFS;
  run_handler; cbv [Failed Succeeded negb].

Ltac grown :=
  repeat apply grown_by_snoc; apply grown_by_refl.

Section Registered.
Context {W SB DB FB Entry : Type}.
Context {storage : StorageBackend.t W SB}
        {directory : DirectoryBackend.t W DB Entry}
        {filesystem : FileSystemBackend.t W FB SB DB}
        {mounts : Mounts.t W FB}
        {layout : EntryLayout.t Entry}
        {host : Host.t W}.
Implicit Types (m : Machine W SB DB FB).

Local Abbreviation IStorage_table :=
  (FunctionTables.IStorage_functions (W := W) (SB := SB) (DB := DB) (FB := FB)).
Local Abbreviation IFile_table :=
  (FunctionTables.IFile_functions (W := W) (SB := SB) (DB := DB) (FB := FB)).
Local Abbreviation IDirectory_table :=
  (FunctionTables.IDirectory_functions (W := W) (SB := SB) (DB := DB) (FB := FB)).
Local Abbreviation IFileSystem_table :=
  (FunctionTables.IFileSystem_functions (W := W) (SB := SB) (DB := DB) (FB := FB)).
Local Abbreviation FSP_SRV_table :=
  (FunctionTables.FSP_SRV_functions (W := W) (SB := SB) (DB := DB) (FB := FB)).

(** X13.  In each of the five function tables the command ids grow
    strictly from one entry to the next, so no id is registered
    twice. *)
Theorem function_tables_sorted :
  FunctionTables.strictly_increasing
    (FunctionTables.ids IStorage_table) = true /\
  FunctionTables.strictly_increasing
    (FunctionTables.ids IFile_table) = true /\
  FunctionTables.strictly_increasing
    (FunctionTables.ids IDirectory_table) = true /\
  FunctionTables.strictly_increasing
    (FunctionTables.ids IFileSystem_table) = true /\
  FunctionTables.strictly_increasing
    (FunctionTables.ids FSP_SRV_table) = true /\
  NoDup (FunctionTables.ids IStorage_table) /\
  NoDup (FunctionTables.ids IFile_table) /\
  NoDup (FunctionTables.ids IDirectory_table) /\
  NoDup (FunctionTables.ids IFileSystem_table) /\
  NoDup (FunctionTables.ids FSP_SRV_table).
Proof.
  repeat split; try reflexivity; apply strictly_increasing_NoDup; reflexivity.
Qed.

(** X14.  Every handler registered in the five tables builds its reply as
    it declared it.  When it returns, the reply starts with a status
    and goes on with results only, takes the number of words the
    builder was declared for (two for the status, one or two for a
    32-bit or 64-bit result), copies no handle, and carries as many
    objects as declared, one at most.  When it stops at an assertion
    or is left by an exception, the reply is as it was before the
    call. *)
Theorem registered_handlers_reply_as_declared :
  (forall id h (backend : SB) m,
     In (id, h) (FunctionTables.implemented IStorage_table) ->
     answered_in_order m (h backend m)) /\
  (forall id h (backend : SB) m,
     In (id, h) (FunctionTables.implemented IFile_table) ->
     answered_in_order m (h backend m)) /\
  (forall id h (backend : DB) m,
     In (id, h) (FunctionTables.implemented IDirectory_table) ->
     answered_in_order m (h backend m)) /\
  (forall id h (backend : FB) m,
     In (id, h) (FunctionTables.implemented IFileSystem_table) ->
     answered_in_order m (h backend m)) /\
  (forall id h (self : FSP_SRV FB) m,
     In (id, h) (FunctionTables.implemented FSP_SRV_table) ->
     answered_in_order m (h self m)).
Proof.
  split; [|split; [|split; [|split]]]; intros id h backend m Hin;
    unfold answered_in_order;
    each_entry Hin; unfold_handlers; split_cases; reflexivity.
Qed.

(** X15.  How much a handler registered in the five tables can do.
    Only command 0 of a storage, file or directory object, Read,
    writes to the output buffer, and one payload at most; what was
    written before stays.  The log of backend calls only grows at its
    end: by one call at most for a handler of the four object classes,
    by two at most for a handler of FSP_SRV.  This holds whether the
    handler returns, stops at an assertion or is left by an
    exception. *)
Theorem registered_handlers_effects_bounded :
  (forall id h (backend : SB) m,
     In (id, h) (FunctionTables.implemented IStorage_table) ->
     bounded_effects (if id =? 0 then 1 else 0) 1 m (final (h backend m))) /\
  (forall id h (backend : SB) m,
     In (id, h) (FunctionTables.implemented IFile_table) ->
     bounded_effects (if id =? 0 then 1 else 0) 1 m (final (h backend m))) /\
  (forall id h (backend : DB) m,
     In (id, h) (FunctionTables.implemented IDirectory_table) ->
     bounded_effects (if id =? 0 then 1 else 0) 1 m (final (h backend m))) /\
  (forall id h (backend : FB) m,
     In (id, h) (FunctionTables.implemented IFileSystem_table) ->
     bounded_effects 0 1 m (final (h backend m))) /\
  (forall id h (self : FSP_SRV FB) m,
     In (id, h) (FunctionTables.implemented FSP_SRV_table) ->
     bounded_effects 0 2 m (final (h self m))).
Proof.
  split; [|split; [|split; [|split]]]; intros id h backend m Hin;
    unfold bounded_effects;
    each_entry Hin; cbv [Z.eqb]; unfold_handlers; split_cases; cbn;
    split; grown.
Qed.

End Registered.

Lemma registered_handlers_reply_as_declared_witness :
  In (0, IFile_Read) MoreRuns.file_commands /\
  answered_in_order Runs.file_read_ten (IFile_Read Runs.four_bytes Runs.file_read_ten).
Proof.
  assert (H1 : In (0, IFile_Read) MoreRuns.file_commands) by (left; reflexivity).
  split; [exact H1|].
  exact (proj1 (proj2 (registered_handlers_reply_as_declared
                         (directory := MemoryBackend.directory)
                         (filesystem := MemoryBackend.filesystem)
                         (mounts := MemoryBackend.mounts)
                         (layout := MemoryBackend.layout)))
           0 IFile_Read Runs.four_bytes Runs.file_read_ten H1).
Defined.

Lemma registered_handlers_effects_bounded_witness :
  In (0, IDirectory_Read) MoreRuns.directory_commands /\
  bounded_effects 1 1 Runs.directory_read_three
    (final (IDirectory_Read Runs.one_entry Runs.directory_read_three)).
Proof.
  assert (H1 : In (0, IDirectory_Read) MoreRuns.directory_commands)
    by (left; reflexivity).
  split; [exact H1|].
  exact (proj1 (proj2 (proj2 (registered_handlers_effects_bounded
                                (storage := MemoryBackend.storage)
                                (filesystem := MemoryBackend.filesystem)
                                (mounts := MemoryBackend.mounts)
                                (host := MemoryBackend.host))))
           0 IDirectory_Read Runs.one_entry Runs.directory_read_three H1).
Defined.
